(** * Tele-health canister: a shallow embedding of
      [src/dfinity_js_backend/src/index.ts] and the properties of its
      CRUD handlers and of the BMI calculator.

    Conventions of the embedding.
    - Candid [text] is [string]; [nat64] is [N] (the decoder only hands
      the handlers values below 2^64); [Vec] is [list]; [Opt] is
      [option]; [Principal] is kept by its textual form.
    - Every [StableBTreeMap] is a [gmap string _]; the nine maps together
      form the canister [State].  [insert] is insert-or-replace, [get] is
      lookup, [values] enumerates the stored values in the map's own
      order.
    - A handler is a function from its arguments and the [State] to a
      [Result] and the new [State].  What the handler reads from its
      environment is an explicit argument: the identifier returned by
      [uuidv4()], the principal returned by [ic.caller()], the text of
      [new Date().toISOString()].
    - JavaScript numbers are IEEE 754 binary64 values, modelled with the
      standard library's [SpecFloat] at precision 53 and emax 1024. *)

From Stdlib Require Import ZArith NArith String Ascii List Bool Lia.
From Stdlib Require Import DecimalString.
From Stdlib Require Import Floats.SpecFloat.
From stdpp Require Import base strings gmap list.

Local Open Scope string_scope.

(** ** Results and messages *)

Inductive Result (T E : Type) : Type :=
| Ok (t : T)
| Err (e : E).

Arguments Ok {T E} t.
Arguments Err {T E} e.

Inductive Message : Type :=
| Success (m : string)
| Error (m : string)
| NotFound (m : string)
| InvalidPayload (m : string)
| PaymentFailed (m : string)
| PaymentCompleted (m : string).

Abbreviation text := string (only parsing).
Abbreviation Principal := string (only parsing).
Abbreviation nat64 := N (only parsing).

(** ** Records *)

Module Department.
Record t : Type := mk { id : text; name : text; description : text }.
End Department.

Module Doctor.
(** [available] is not a declared field of the source's [Doctor]; it is the
    key that [updateDoctorAvailability] adds to the object it stores. *)
Record t : Type := mk {
  id : text;
  owner : Principal;
  name : text;
  department_id : text;
  image : text;
  available : option bool
}.
End Doctor.

Module EmergencyContact.
Record t : Type := mk { name : text; phone_number : text; relationship : text }.
End EmergencyContact.

Module Patient.
Record t : Type := mk {
  id : text;
  owner : Principal;
  name : text;
  age : nat64;
  gender : text;
  phone_number : text;
  email : text;
  address : text;
  emergency_contact : EmergencyContact.t;
  allergies : list text;
  current_medications : list text;
  medical_history : list text
}.
End Patient.

Module Consultation.
Record t : Type := mk {
  id : text;
  patient_id : text;
  problem : text;
  department_id : text
}.
End Consultation.

Module Chat.
Record t : Type := mk {
  id : text;
  patient_id : text;
  doctor_id : text;
  message : text;
  timestamp : text
}.
End Chat.

Module Appointment.
Record t : Type := mk {
  id : text;
  patient_id : text;
  doctor_id : text;
  reason : text;
  appointment_time : text;
  status : text;
  video_link : option text
}.
End Appointment.

Module Prescription.
Record t : Type := mk {
  id : text;
  patient_id : text;
  doctor_id : text;
  medications : list text;
  instructions : text;
  issued_at : text
}.
End Prescription.

Module Payment.
Record t : Type := mk {
  id : text;
  appointment_id : text;
  patient_id : text;
  amount : nat64;
  status : text;
  payment_method : text
}.
End Payment.

Module MedicalRecord.
Record t : Type := mk {
  patient_id : text;
  consultation_notes : list text;
  prescriptions : list Prescription.t;
  lab_results : list text;
  immunizations : list text
}.
End MedicalRecord.

(** ** Payloads *)

Module CreateDepartmentPayload.
Record t : Type := mk { name : text; description : text }.
End CreateDepartmentPayload.

Module CreateDoctorPayload.
Record t : Type := mk { name : text; department_id : text; image : text }.
End CreateDoctorPayload.

Module CreatePatientPayload.
Record t : Type := mk {
  name : text;
  age : nat64;
  gender : text;
  phone_number : text;
  email : text;
  address : text;
  emergency_contact : EmergencyContact.t;
  allergies : list text;
  current_medications : list text;
  medical_history : list text
}.
End CreatePatientPayload.

Module CreateConsultationPayload.
Record t : Type := mk { patient_id : text; problem : text; department_id : text }.
End CreateConsultationPayload.

Module CreateChatPayload.
Record t : Type := mk {
  patient_id : text;
  doctor_id : text;
  message : text;
  timestamp : text
}.
End CreateChatPayload.

Module CreateAppointmentPayload.
Record t : Type := mk {
  patient_id : text;
  doctor_id : text;
  reason : text;
  appointment_time : text
}.
End CreateAppointmentPayload.

Module CreatePrescriptionPayload.
Record t : Type := mk {
  patient_id : text;
  doctor_id : text;
  medications : list text;
  instructions : text
}.
End CreatePrescriptionPayload.

Module CreatePaymentPayload.
Record t : Type := mk {
  patient_id : text;
  appointment_id : text;
  amount : nat64;
  payment_method : text
}.
End CreatePaymentPayload.

(** ** Storage *)

Record State : Type := mkState {
  Departments : gmap string Department.t;
  Doctors : gmap string Doctor.t;
  Patients : gmap string Patient.t;
  Consultations : gmap string Consultation.t;
  Chats : gmap string Chat.t;
  Appointments : gmap string Appointment.t;
  Prescriptions : gmap string Prescription.t;
  Payments : gmap string Payment.t;
  MedicalRecords : gmap string MedicalRecord.t
}.

Definition emptyState : State :=
  mkState ∅ ∅ ∅ ∅ ∅ ∅ ∅ ∅ ∅.

(** [m.values()] *)
Definition values {V : Type} (m : gmap string V) : list V :=
  (map_to_list m).*2.

Definition set_Departments (m : gmap string Department.t) (st : State) : State :=
  mkState m (Doctors st) (Patients st) (Consultations st) (Chats st)
    (Appointments st) (Prescriptions st) (Payments st) (MedicalRecords st).

Definition set_Doctors (m : gmap string Doctor.t) (st : State) : State :=
  mkState (Departments st) m (Patients st) (Consultations st) (Chats st)
    (Appointments st) (Prescriptions st) (Payments st) (MedicalRecords st).

Definition set_Patients (m : gmap string Patient.t) (st : State) : State :=
  mkState (Departments st) (Doctors st) m (Consultations st) (Chats st)
    (Appointments st) (Prescriptions st) (Payments st) (MedicalRecords st).

Definition set_Consultations (m : gmap string Consultation.t) (st : State) : State :=
  mkState (Departments st) (Doctors st) (Patients st) m (Chats st)
    (Appointments st) (Prescriptions st) (Payments st) (MedicalRecords st).

Definition set_Chats (m : gmap string Chat.t) (st : State) : State :=
  mkState (Departments st) (Doctors st) (Patients st) (Consultations st) m
    (Appointments st) (Prescriptions st) (Payments st) (MedicalRecords st).

Definition set_Appointments (m : gmap string Appointment.t) (st : State) : State :=
  mkState (Departments st) (Doctors st) (Patients st) (Consultations st) (Chats st)
    m (Prescriptions st) (Payments st) (MedicalRecords st).

Definition set_Prescriptions (m : gmap string Prescription.t) (st : State) : State :=
  mkState (Departments st) (Doctors st) (Patients st) (Consultations st) (Chats st)
    (Appointments st) m (Payments st) (MedicalRecords st).

Definition set_Payments (m : gmap string Payment.t) (st : State) : State :=
  mkState (Departments st) (Doctors st) (Patients st) (Consultations st) (Chats st)
    (Appointments st) (Prescriptions st) m (MedicalRecords st).

Definition set_MedicalRecords (m : gmap string MedicalRecord.t) (st : State) : State :=
  mkState (Departments st) (Doctors st) (Patients st) (Consultations st) (Chats st)
    (Appointments st) (Prescriptions st) (Payments st) m.

(** ** JavaScript truthiness of the payload fields

    [!s] on a string holds exactly for the empty string, [!n] on a bigint
    exactly for [0n], and [!a] on an array never. *)

Definition not_text (s : text) : bool := bool_decide (s = "").
Definition not_nat64 (n : nat64) : bool := (n =? 0)%N.
Definition not_vec {A : Type} (l : list A) : bool := false.

(** [payload.age === undefined]: a decoded [nat64] is never [undefined]. *)
Definition nat64_is_undefined (n : nat64) : bool := false.

(** ** Departments *)

(** The uniqueness loop of [createDepartment]: the first stored department
    whose name is strictly equal to [name] stops the scan. *)
Fixpoint name_in_use (name : text) (existingDepartments : list Department.t) : bool :=
  match existingDepartments with
  | [] => false
  | department :: rest =>
      if bool_decide (Department.name department = name) then true
      else name_in_use name rest
  end.

Definition createDepartment (uuidv4 : text) (payload : CreateDepartmentPayload.t)
    (st : State) : Result Department.t Message * State :=
  if not_text (CreateDepartmentPayload.name payload) then
    (Err (InvalidPayload "Missing required fields"), st)
  else if name_in_use (CreateDepartmentPayload.name payload) (values (Departments st)) then
    (Err (InvalidPayload "Department name must be unique"), st)
  else
    let departmentId := uuidv4 in
    let department :=
      {| Department.id := departmentId;
         Department.name := CreateDepartmentPayload.name payload;
         Department.description := CreateDepartmentPayload.description payload |} in
    (Ok department, set_Departments (<[departmentId := department]> (Departments st)) st).

Definition getDepartmentById (departmentId : text) (st : State)
    : Result Department.t Message :=
  match Departments st !! departmentId with
  | None => Err (NotFound ("Department with id=" +:+ departmentId +:+ " not found"))
  | Some department => Ok department
  end.

Definition getAllDepartments (st : State) : Result (list Department.t) Message :=
  let departments := values (Departments st) in
  if (length departments =? 0)%nat then Err (NotFound "No departments found")
  else Ok departments.

(** ** Doctors *)

Definition createDoctor (uuidv4 : text) (caller : Principal)
    (payload : CreateDoctorPayload.t) (st : State) : Result Doctor.t Message * State :=
  if not_text (CreateDoctorPayload.name payload)
     || not_text (CreateDoctorPayload.department_id payload)
     || not_text (CreateDoctorPayload.image payload) then
    (Err (InvalidPayload "Missing required fields"), st)
  else
    match Departments st !! CreateDoctorPayload.department_id payload with
    | None =>
        (Err (InvalidPayload ("Department with id="
                +:+ CreateDoctorPayload.department_id payload +:+ " not found")), st)
    | Some _ =>
        let doctorId := uuidv4 in
        let doctor :=
          {| Doctor.id := doctorId;
             Doctor.name := CreateDoctorPayload.name payload;
             Doctor.department_id := CreateDoctorPayload.department_id payload;
             Doctor.image := CreateDoctorPayload.image payload;
             Doctor.owner := caller;
             Doctor.available := None |} in
        (Ok doctor, set_Doctors (<[doctorId := doctor]> (Doctors st)) st)
    end.

Definition getDoctorById (doctorId : text) (st : State) : Result Doctor.t Message :=
  match Doctors st !! doctorId with
  | None => Err (NotFound ("Doctor with id=" +:+ doctorId +:+ " not found"))
  | Some doctor => Ok doctor
  end.

Definition getDoctorByDepartment (departmentId : text) (st : State)
    : Result (list Doctor.t) Message :=
  let doctors :=
    List.filter (fun doctor => bool_decide (Doctor.department_id doctor = departmentId))
      (values (Doctors st)) in
  if (length doctors =? 0)%nat then
    Err (NotFound ("No doctors found for department id=" +:+ departmentId))
  else Ok doctors.

Definition getAllDoctors (st : State) : Result (list Doctor.t) Message :=
  let doctors := values (Doctors st) in
  if (length doctors =? 0)%nat then Err (NotFound "No doctors found")
  else Ok doctors.

Definition updateDoctorAvailability (doctorId : text) (availability : bool) (st : State)
    : Result Doctor.t Message * State :=
  match Doctors st !! doctorId with
  | None => (Err (NotFound ("Doctor with id=" +:+ doctorId +:+ " not found")), st)
  | Some doctor =>
      let updatedDoctor :=
        {| Doctor.id := Doctor.id doctor;
           Doctor.owner := Doctor.owner doctor;
           Doctor.name := Doctor.name doctor;
           Doctor.department_id := Doctor.department_id doctor;
           Doctor.image := Doctor.image doctor;
           Doctor.available := Some availability |} in
      (Ok updatedDoctor, set_Doctors (<[doctorId := updatedDoctor]> (Doctors st)) st)
  end.

Definition updateDoctor (doctorId : text) (payload : CreateDoctorPayload.t) (st : State)
    : Result Doctor.t Message * State :=
  match Doctors st !! doctorId with
  | None => (Err (NotFound ("Doctor with id=" +:+ doctorId +:+ " not found")), st)
  | Some doctor =>
      let updatedDoctor :=
        {| Doctor.id := Doctor.id doctor;
           Doctor.owner := Doctor.owner doctor;
           Doctor.available := Doctor.available doctor;
           Doctor.name := CreateDoctorPayload.name payload;
           Doctor.department_id := CreateDoctorPayload.department_id payload;
           Doctor.image := CreateDoctorPayload.image payload |} in
      (Ok updatedDoctor, set_Doctors (<[doctorId := updatedDoctor]> (Doctors st)) st)
  end.

(** ** Patients *)

Definition createPatient (uuidv4 : text) (caller : Principal)
    (payload : CreatePatientPayload.t) (st : State) : Result Patient.t Message * State :=
  if not_text (CreatePatientPayload.name payload)
     || nat64_is_undefined (CreatePatientPayload.age payload) then
    (Err (InvalidPayload "Missing required fields"), st)
  else
    let patientId := uuidv4 in
    let patient :=
      {| Patient.name := CreatePatientPayload.name payload;
         Patient.age := CreatePatientPayload.age payload;
         Patient.gender := CreatePatientPayload.gender payload;
         Patient.phone_number := CreatePatientPayload.phone_number payload;
         Patient.email := CreatePatientPayload.email payload;
         Patient.address := CreatePatientPayload.address payload;
         Patient.emergency_contact := CreatePatientPayload.emergency_contact payload;
         Patient.allergies := CreatePatientPayload.allergies payload;
         Patient.current_medications := CreatePatientPayload.current_medications payload;
         Patient.medical_history := CreatePatientPayload.medical_history payload;
         Patient.id := patientId;
         Patient.owner := caller |} in
    (Ok patient, set_Patients (<[patientId := patient]> (Patients st)) st).

Definition getPatientById (patientId : text) (st : State) : Result Patient.t Message :=
  match Patients st !! patientId with
  | None => Err (NotFound ("Patient with id=" +:+ patientId +:+ " not found"))
  | Some patient => Ok patient
  end.

Definition getAllPatients (st : State) : Result (list Patient.t) Message :=
  let patients := values (Patients st) in
  if (length patients =? 0)%nat then Err (NotFound "No patients found")
  else Ok patients.

Definition updatePatient (patientId : text) (payload : CreatePatientPayload.t) (st : State)
    : Result Patient.t Message * State :=
  match Patients st !! patientId with
  | None => (Err (NotFound ("Patient with id=" +:+ patientId +:+ " not found")), st)
  | Some patient =>
      let updatedPatient :=
        {| Patient.id := Patient.id patient;
           Patient.owner := Patient.owner patient;
           Patient.name := CreatePatientPayload.name payload;
           Patient.age := CreatePatientPayload.age payload;
           Patient.gender := CreatePatientPayload.gender payload;
           Patient.phone_number := CreatePatientPayload.phone_number payload;
           Patient.email := CreatePatientPayload.email payload;
           Patient.address := CreatePatientPayload.address payload;
           Patient.emergency_contact := CreatePatientPayload.emergency_contact payload;
           Patient.allergies := CreatePatientPayload.allergies payload;
           Patient.current_medications := CreatePatientPayload.current_medications payload;
           Patient.medical_history := CreatePatientPayload.medical_history payload |} in
      (Ok updatedPatient, set_Patients (<[patientId := updatedPatient]> (Patients st)) st)
  end.

(** ** Consultations *)

Definition createConsultation (uuidv4 : text) (payload : CreateConsultationPayload.t)
    (st : State) : Result Consultation.t Message * State :=
  if not_text (CreateConsultationPayload.patient_id payload)
     || not_text (CreateConsultationPayload.problem payload)
     || not_text (CreateConsultationPayload.department_id payload) then
    (Err (InvalidPayload "Missing required fields"), st)
  else
    match Patients st !! CreateConsultationPayload.patient_id payload with
    | None =>
        (Err (InvalidPayload ("Patient with id="
                +:+ CreateConsultationPayload.patient_id payload +:+ " not found")), st)
    | Some _ =>
        match Departments st !! CreateConsultationPayload.department_id payload with
        | None =>
            (Err (InvalidPayload ("Department with id="
                    +:+ CreateConsultationPayload.department_id payload +:+ " not found")), st)
        | Some _ =>
            let consultationId := uuidv4 in
            let consultation :=
              {| Consultation.patient_id := CreateConsultationPayload.patient_id payload;
                 Consultation.problem := CreateConsultationPayload.problem payload;
                 Consultation.department_id := CreateConsultationPayload.department_id payload;
                 Consultation.id := consultationId |} in
            (Ok consultation,
             set_Consultations (<[consultationId := consultation]> (Consultations st)) st)
        end
    end.

Definition getConsultationById (consultationId : text) (st : State)
    : Result Consultation.t Message :=
  match Consultations st !! consultationId with
  | None => Err (NotFound ("Consultation with id=" +:+ consultationId +:+ " not found"))
  | Some consultation => Ok consultation
  end.

Definition getAllConsultations (st : State) : Result (list Consultation.t) Message :=
  let consultations := values (Consultations st) in
  if (length consultations =? 0)%nat then Err (NotFound "No consultations found")
  else Ok consultations.

Definition getConsultationHistoryByPatient (patientId : text) (st : State)
    : Result (list Consultation.t) Message :=
  let consultations :=
    List.filter
      (fun consultation => bool_decide (Consultation.patient_id consultation = patientId))
      (values (Consultations st)) in
  if (length consultations =? 0)%nat then
    Err (NotFound ("No consultations found for patient id=" +:+ patientId))
  else Ok consultations.

(** ** Chats *)

Definition createChat (uuidv4 : text) (payload : CreateChatPayload.t) (st : State)
    : Result Chat.t Message * State :=
  if not_text (CreateChatPayload.patient_id payload)
     || not_text (CreateChatPayload.doctor_id payload)
     || not_text (CreateChatPayload.message payload)
     || not_text (CreateChatPayload.timestamp payload) then
    (Err (InvalidPayload "Missing required fields"), st)
  else
    match Patients st !! CreateChatPayload.patient_id payload with
    | None =>
        (Err (InvalidPayload ("Patient with id="
                +:+ CreateChatPayload.patient_id payload +:+ " not found")), st)
    | Some _ =>
        match Doctors st !! CreateChatPayload.doctor_id payload with
        | None =>
            (Err (InvalidPayload ("Doctor with id="
                    +:+ CreateChatPayload.doctor_id payload +:+ " not found")), st)
        | Some _ =>
            let chatId := uuidv4 in
            let chat :=
              {| Chat.patient_id := CreateChatPayload.patient_id payload;
                 Chat.doctor_id := CreateChatPayload.doctor_id payload;
                 Chat.message := CreateChatPayload.message payload;
                 Chat.timestamp := CreateChatPayload.timestamp payload;
                 Chat.id := chatId |} in
            (Ok chat, set_Chats (<[chatId := chat]> (Chats st)) st)
        end
    end.

Definition getChatById (chatId : text) (st : State) : Result Chat.t Message :=
  match Chats st !! chatId with
  | None => Err (NotFound ("Chat with id=" +:+ chatId +:+ " not found"))
  | Some chat => Ok chat
  end.

Definition getAllChats (st : State) : Result (list Chat.t) Message :=
  let chats := values (Chats st) in
  if (length chats =? 0)%nat then Err (NotFound "No chats found")
  else Ok chats.

(** ** Name searches

    [toLowerCase] is the host's [String.prototype.toLowerCase]; the two
    searches are stated for any such function.  [includes s search] is
    [s.includes(search)]: [search] occurs in [s] as a contiguous run. *)

Fixpoint includes (s search : text) : bool :=
  if String.prefix search s then true
  else
    match s with
    | EmptyString => false
    | String _ s' => includes s' search
    end.

Section Search.

Variable toLowerCase : text -> text.

Definition searchDoctorByName (name : text) (st : State) : Result (list Doctor.t) Message :=
  let matchingDoctors :=
    List.filter
      (fun doctor => includes (toLowerCase (Doctor.name doctor)) (toLowerCase name))
      (values (Doctors st)) in
  if (length matchingDoctors =? 0)%nat then
    Err (NotFound ("No doctors found with name containing '" +:+ name +:+ "'"))
  else Ok matchingDoctors.

Definition searchDepartmentByName (name : text) (st : State)
    : Result (list Department.t) Message :=
  let matchingDepartments :=
    List.filter
      (fun department => includes (toLowerCase (Department.name department)) (toLowerCase name))
      (values (Departments st)) in
  if (length matchingDepartments =? 0)%nat then
    Err (NotFound ("No departments found with name containing '" +:+ name +:+ "'"))
  else Ok matchingDepartments.

End Search.

(** ** Appointments *)

Definition createAppointment (uuidv4 : text) (payload : CreateAppointmentPayload.t)
    (st : State) : Result Appointment.t Message * State :=
  if not_text (CreateAppointmentPayload.patient_id payload)
     || not_text (CreateAppointmentPayload.doctor_id payload)
     || not_text (CreateAppointmentPayload.reason payload)
     || not_text (CreateAppointmentPayload.appointment_time payload) then
    (Err (InvalidPayload "Missing required fields"), st)
  else
    match Patients st !! CreateAppointmentPayload.patient_id payload with
    | None =>
        (Err (InvalidPayload ("Patient with id="
                +:+ CreateAppointmentPayload.patient_id payload +:+ " not found")), st)
    | Some _ =>
        match Doctors st !! CreateAppointmentPayload.doctor_id payload with
        | None =>
            (Err (InvalidPayload ("Doctor with id="
                    +:+ CreateAppointmentPayload.doctor_id payload +:+ " not found")), st)
        | Some _ =>
            let appointmentId := uuidv4 in
            let appointment :=
              {| Appointment.patient_id := CreateAppointmentPayload.patient_id payload;
                 Appointment.doctor_id := CreateAppointmentPayload.doctor_id payload;
                 Appointment.reason := CreateAppointmentPayload.reason payload;
                 Appointment.appointment_time :=
                   CreateAppointmentPayload.appointment_time payload;
                 Appointment.id := appointmentId;
                 Appointment.status := "scheduled";
                 Appointment.video_link := None |} in
            (Ok appointment,
             set_Appointments (<[appointmentId := appointment]> (Appointments st)) st)
        end
    end.

(** The source has no get-by-id handler for appointments, prescriptions and
    payments; [Appointments.get], [Prescriptions.get] and [Payments.get] are
    the lookups of their maps. *)

Definition updateAppointmentWithVideoLink (appointmentId videoLink : text) (st : State)
    : Result Appointment.t Message * State :=
  if not_text videoLink && (String.length videoLink =? 0)%nat then
    (Err (InvalidPayload "Missing required fields"), st)
  else
    match Appointments st !! appointmentId with
    | None =>
        (Err (NotFound ("Appointment with id=" +:+ appointmentId +:+ " not found")), st)
    | Some appointment =>
        let updatedAppointment :=
          {| Appointment.id := Appointment.id appointment;
             Appointment.patient_id := Appointment.patient_id appointment;
             Appointment.doctor_id := Appointment.doctor_id appointment;
             Appointment.reason := Appointment.reason appointment;
             Appointment.appointment_time := Appointment.appointment_time appointment;
             Appointment.status := Appointment.status appointment;
             Appointment.video_link := Some videoLink |} in
        (Ok updatedAppointment,
         set_Appointments (<[appointmentId := updatedAppointment]> (Appointments st)) st)
    end.

(** ** Prescriptions *)

Definition createPrescription (uuidv4 : text) (now : text)
    (payload : CreatePrescriptionPayload.t) (st : State)
    : Result Prescription.t Message * State :=
  if not_text (CreatePrescriptionPayload.patient_id payload)
     || not_text (CreatePrescriptionPayload.doctor_id payload)
     || not_vec (CreatePrescriptionPayload.medications payload)
     || not_text (CreatePrescriptionPayload.instructions payload) then
    (Err (InvalidPayload "Missing required fields"), st)
  else
    match Patients st !! CreatePrescriptionPayload.patient_id payload with
    | None =>
        (Err (InvalidPayload ("Patient with id="
                +:+ CreatePrescriptionPayload.patient_id payload +:+ " not found")), st)
    | Some _ =>
        match Doctors st !! CreatePrescriptionPayload.doctor_id payload with
        | None =>
            (Err (InvalidPayload ("Doctor with id="
                    +:+ CreatePrescriptionPayload.doctor_id payload +:+ " not found")), st)
        | Some _ =>
            let prescriptionId := uuidv4 in
            let prescription :=
              {| Prescription.patient_id := CreatePrescriptionPayload.patient_id payload;
                 Prescription.doctor_id := CreatePrescriptionPayload.doctor_id payload;
                 Prescription.medications := CreatePrescriptionPayload.medications payload;
                 Prescription.instructions := CreatePrescriptionPayload.instructions payload;
                 Prescription.id := prescriptionId;
                 Prescription.issued_at := now |} in
            (Ok prescription,
             set_Prescriptions (<[prescriptionId := prescription]> (Prescriptions st)) st)
        end
    end.

(** ** Payments *)

Definition initiatePayment (uuidv4 : text) (payload : CreatePaymentPayload.t) (st : State)
    : Result Payment.t Message * State :=
  if not_text (CreatePaymentPayload.patient_id payload)
     || not_text (CreatePaymentPayload.appointment_id payload)
     || not_nat64 (CreatePaymentPayload.amount payload)
     || not_text (CreatePaymentPayload.payment_method payload) then
    (Err (InvalidPayload "Missing required fields"), st)
  else
    match Patients st !! CreatePaymentPayload.patient_id payload with
    | None =>
        (Err (InvalidPayload ("Patient with id="
                +:+ CreatePaymentPayload.patient_id payload +:+ " not found")), st)
    | Some _ =>
        match Appointments st !! CreatePaymentPayload.appointment_id payload with
        | None =>
            (Err (InvalidPayload ("Appointment with id="
                    +:+ CreatePaymentPayload.appointment_id payload +:+ " not found")), st)
        | Some _ =>
            let paymentId := uuidv4 in
            let payment :=
              {| Payment.patient_id := CreatePaymentPayload.patient_id payload;
                 Payment.appointment_id := CreatePaymentPayload.appointment_id payload;
                 Payment.amount := CreatePaymentPayload.amount payload;
                 Payment.payment_method := CreatePaymentPayload.payment_method payload;
                 Payment.id := paymentId;
                 Payment.status := "pending" |} in
            (Ok payment, set_Payments (<[paymentId := payment]> (Payments st)) st)
        end
    end.

Definition updatePaymentStatus (paymentId newStatus : text) (st : State)
    : Result Payment.t Message * State :=
  match Payments st !! paymentId with
  | None => (Err (NotFound ("Payment with id=" +:+ paymentId +:+ " not found")), st)
  | Some payment =>
      let updatedPayment :=
        {| Payment.id := Payment.id payment;
           Payment.appointment_id := Payment.appointment_id payment;
           Payment.patient_id := Payment.patient_id payment;
           Payment.amount := Payment.amount payment;
           Payment.payment_method := Payment.payment_method payment;
           Payment.status := newStatus |} in
      (Ok updatedPayment, set_Payments (<[paymentId := updatedPayment]> (Payments st)) st)
  end.

(** ** Medical records *)

Definition getMedicalRecordsByPatient (patientId : text) (st : State)
    : Result MedicalRecord.t Message :=
  match MedicalRecords st !! patientId with
  | None =>
      Err (NotFound ("Medical records for patient id=" +:+ patientId +:+ " not found"))
  | Some medicalRecord => Ok medicalRecord
  end.

Definition updateMedicalRecords (patientId : text) (updatedRecords : MedicalRecord.t)
    (st : State) : Result MedicalRecord.t Message * State :=
  (Ok updatedRecords,
   set_MedicalRecords (<[patientId := updatedRecords]> (MedicalRecords st)) st).

(** ** JavaScript numbers

    A [number] is an IEEE 754 binary64 value.  [Number(n)] of a bigint and
    the arithmetic operators round to nearest, ties to even. *)

Module Js.

Local Open Scope Z_scope.

Definition prec : Z := 53.
Definition emax : Z := 1024.

Abbreviation number := spec_float (only parsing).

(** [Number(n)] for a bigint [n] *)
Definition Number (n : nat64) : number := binary_normalize prec emax (Z.of_N n) 0 false.

Definition div (x y : number) : number := SFdiv prec emax x y.
Definition mul (x y : number) : number := SFmul prec emax x y.
Definition ltb (x y : number) : bool := SFltb x y.

(** A decimal literal [d / 10^k] whose digits [d] and scale [10^k] are both
    below 2^53 denotes the binary64 value nearest to it, which is what the
    correctly rounded quotient of the two integers is. *)
Definition literal (d : Z) (k : nat) : number :=
  div (binary_normalize prec emax d 0 false)
      (binary_normalize prec emax (10 ^ Z.of_nat k) 0 false).

Definition isFinite (x : number) : bool :=
  match x with
  | S754_zero _ | S754_finite _ _ _ => true
  | S754_infinity _ | S754_nan => false
  end.

(** Decimal digits of a natural number, no leading zero (["0"] for 0). *)
Definition digits (n : N) : string := NilZero.string_of_uint (N.to_uint n).

Fixpoint zeros (k : nat) : string :=
  match k with
  | O => ""
  | S k' => String "0" (zeros k')
  end.

(** The digits that [Number.prototype.toFixed] prints for the integer [n]:
    those of [n], padded on the left with zeros to [f + 1] of them, with a
    point before the last [f]. *)
Definition fixed_digits (n : N) (f : nat) : string :=
  let m := digits n in
  let k := String.length m in
  let m := if (k <=? f)%nat then zeros (f + 1 - k) +:+ m else m in
  let k := String.length m in
  if (f =? 0)%nat then m
  else substring 0 (k - f) m +:+ "." +:+ substring (k - f) f m.

(** The integer [n] for which [n / 10^f - m * 2^e] is closest to zero, the
    larger one when two are equally close. *)
Definition nearest_scaled (m : positive) (e : Z) (f : nat) : Z :=
  let num := Z.pos m * 10 ^ Z.of_nat f * 2 ^ Z.max e 0 in
  let den := 2 ^ Z.max (- e) 0 in
  (2 * num + den) / (2 * den).

(** *** [Number::toString] at and above 10^21

    The value is an integer [X].  The shortest digit string [s] of [k]
    digits with [s * 10^(n-k)] rounding to the same binary64 value is
    searched for [k = 1, 2, ...]; among the candidates of that length the one
    nearest to [X] is taken. *)

Definition same_number (x y : number) : bool :=
  match x, y with
  | S754_finite sx mx ex, S754_finite sy my ey =>
      Bool.eqb sx sy && (mx =? my)%positive && (ex =? ey)%Z
  | _, _ => false
  end.

Definition candidate (x : number) (k n s : Z) : bool :=
  (10 ^ (k - 1) <=? s)%Z && (s <? 10 ^ k)%Z
  && same_number (binary_normalize prec emax (s * 10 ^ (n - k)) 0 false) x.

Definition nearer (X : Z) (k : Z) (a b : option (Z * Z)) : option (Z * Z) :=
  match a, b with
  | None, _ => b
  | _, None => a
  | Some (s1, n1), Some (s2, n2) =>
      if (Z.abs (s2 * 10 ^ (n2 - k) - X) <? Z.abs (s1 * 10 ^ (n1 - k) - X))%Z
      then b else a
  end.

Definition candidates (x : number) (X : Z) (d k : Z) : option (Z * Z) :=
  let try n s := if candidate x k n s then Some (s, n) else None in
  let lo n := X / 10 ^ (n - k) in
  nearer X k
    (nearer X k (try d (lo d)) (try d (lo d + 1)))
    (nearer X k (try (d + 1) (lo (d + 1))) (try (d + 1) (lo (d + 1) + 1))).

Fixpoint shortest (x : number) (X : Z) (d : Z) (k : Z) (fuel : nat) : option (Z * Z) :=
  match fuel with
  | O => None
  | S fuel' =>
      match candidates x X d k with
      | Some r => Some r
      | None => shortest x X d (k + 1) fuel'
      end
  end.

Definition toString_large (x : number) (X : Z) : string :=
  let d := Z.of_nat (String.length (digits (Z.to_N X))) in
  match shortest x X d 1 17 with
  | None => digits (Z.to_N X)
  | Some (s, n) =>
      let ds := digits (Z.to_N s) in
      let k := String.length ds in
      let exponent := "e+" +:+ digits (Z.to_N (n - 1)) in
      if (k =? 1)%nat then ds +:+ exponent
      else substring 0 1 ds +:+ "." +:+ substring 1 (k - 1) ds +:+ exponent
  end.

(** [x.toFixed(f)] *)
Definition toFixed (x : number) (f : nat) : string :=
  match x with
  | S754_nan => "NaN"
  | S754_infinity s => if s then "-Infinity" else "Infinity"
  | S754_zero _ => fixed_digits 0 f
  | S754_finite s m e =>
      let sign := if s then "-" else "" in
      if (10 ^ 21 * 2 ^ Z.max (- e) 0 <=? Z.pos m * 2 ^ Z.max e 0)%Z then
        sign +:+ toString_large (S754_finite false m e) (Z.shiftl (Z.pos m) e)
      else sign +:+ fixed_digits (Z.to_N (nearest_scaled m e f)) f
  end.

End Js.

(** ** Calculators *)

Definition calculateBMI (weight height : nat64) : Result text Message :=
  if (height =? 0)%N then Err (Error "Height cannot be zero.")
  else
    let weightInKg := Js.Number weight in
    let heightInMeters := Js.div (Js.Number height) (Js.literal 100 0) in
    let bmi := Js.div weightInKg (Js.mul heightInMeters heightInMeters) in
    if negb (Js.isFinite bmi) then Err (Error "Invalid BMI calculation.")
    else
      let category :=
        if Js.ltb bmi (Js.literal 185 1) then "Underweight"
        else if Js.ltb bmi (Js.literal 249 1) then "Normal Weight"
        else if Js.ltb bmi (Js.literal 299 1) then "Overweight"
        else "Obese" in
      Ok ("BMI is " +:+ Js.toFixed bmi 2 +:+ " - " +:+ category).

(** ** Vocabulary of the statements *)

(** The shape every list-all and filter query gives to its answer: the
    sequence itself when it has an element, a [NotFound] error when it has
    none, and in no case an empty sequence as a success. *)
Definition all_or_NotFound {A : Type} (l : list A) (r : Result (list A) Message) : Prop :=
  match l with
  | [] => ∃ msg, r = Err (NotFound msg)
  | _ :: _ => r = Ok l
  end ∧ r ≠ Ok [].

(** The text of a failed reference check: [kind] is the entity kind and
    [id] the identifier that did not resolve. *)
Definition not_found (kind id : string) : string :=
  kind +:+ " with id=" +:+ id +:+ " not found".

(** How a create handler with two references words its [InvalidPayload]
    error [msg].  [missing] says that a required field of the payload is
    falsy; [unresolved1] and [unresolved2] say that the first and the second
    reference, in the order the handler checks them, have no record. *)
Definition reference_error (msg : string) (missing : Prop)
    (kind1 id1 : string) (unresolved1 : Prop)
    (kind2 id2 : string) (unresolved2 : Prop) : Prop :=
  (missing ∧ msg = "Missing required fields")
  ∨ (¬ missing ∧ unresolved1 ∧ msg = not_found kind1 id1)
  ∨ (¬ missing ∧ ¬ unresolved1 ∧ unresolved2 ∧ msg = not_found kind2 id2).

(** A positive normal binary64 number, that is one with a mantissa of 53
    bits, whose exponent lies between [lo] and [hi]. *)
Definition normal (lo hi : Z) (x : spec_float) : Prop :=
  ∃ m e, x = S754_finite false m e
         ∧ Z.pos (digits2_pos m) = 53%Z ∧ (lo ≤ e ≤ hi)%Z.

(** The number that [calculateBMI] calls [bmi], and the category it picks
    for it. *)
Definition bmi_value (weight height : N) : spec_float :=
  let weightInKg := Js.Number weight in
  let heightInMeters := Js.div (Js.Number height) (Js.literal 100 0) in
  Js.div weightInKg (Js.mul heightInMeters heightInMeters).

Definition bmi_category (bmi : spec_float) : string :=
  if Js.ltb bmi (Js.literal 185 1) then "Underweight"
  else if Js.ltb bmi (Js.literal 249 1) then "Normal Weight"
  else if Js.ltb bmi (Js.literal 299 1) then "Overweight"
  else "Obese".

(** [m1 * 2^e1 < m2 * 2^e2], over the integers. *)
Definition dyadic_lt (m1 : positive) (e1 : Z) (m2 : positive) (e2 : Z) : Prop :=
  (Z.pos m1 * 2 ^ (e1 - Z.min e1 e2) < Z.pos m2 * 2 ^ (e2 - Z.min e1 e2))%Z.

(** The text that the specification describes, read over the rationals: the
    quotient [weight / (height / 100)^2] rounded to the nearest hundredth
    (a tie upward) and the category of that exact quotient. *)
Definition exact_hundredths (weight height : N) : Z :=
  let w := Z.of_N weight in
  let h := Z.of_N height in
  ((2 * (1000000 * w) + h * h) / (2 * (h * h)))%Z.

Definition exact_category (weight height : N) : string :=
  let w := Z.of_N weight in
  let h := Z.of_N height in
  if (100000 * w <? 185 * (h * h))%Z then "Underweight"
  else if (100000 * w <? 249 * (h * h))%Z then "Normal Weight"
  else if (100000 * w <? 299 * (h * h))%Z then "Overweight"
  else "Obese".

Definition bmi_text_exact (weight height : N) : string :=
  "BMI is " +:+ Js.fixed_digits (Z.to_N (exact_hundredths weight height)) 2
  +:+ " - " +:+ exact_category weight height.

(** ** Sample data *)

Definition sampleContact : EmergencyContact.t :=
  EmergencyContact.mk "Bo" "555-0101" "Spouse".

Definition samplePatientPayload : CreatePatientPayload.t :=
  CreatePatientPayload.mk "Ann" 41 "F" "555-0100" "ann@example.org" "1 Main St"
    sampleContact ["Peanuts"] [] ["Appendectomy"].

Definition samplePatient : Patient.t :=
  Patient.mk "p-1" "aaaaa-aa" "Ann" 41 "F" "555-0100" "ann@example.org" "1 Main St"
    sampleContact ["Peanuts"] [] ["Appendectomy"].

Definition renamedPatientPayload : CreatePatientPayload.t :=
  CreatePatientPayload.mk "Ann B." 42 "F" "555-0199" "annb@example.org" "2 High St"
    sampleContact [] ["Ibuprofen"] [].

Definition sampleAppointment : Appointment.t :=
  Appointment.mk "a-1" "p-1" "doc-1" "checkup" "2024-05-01T09:00" "scheduled" None.

Definition clinic : State :=
  set_Appointments {[ "a-1" := sampleAppointment ]}
    (set_Patients {[ "p-1" := samplePatient ]} emptyState).

Definition sampleRecords : MedicalRecord.t :=
  MedicalRecord.mk "someone-else" ["note"] [] [] [].

(** ** Proof steps shared by the handlers *)

Ltac break_guard :=
  match goal with
  | H : context [if ?b then _ else _] |- _ => destruct b eqn:?
  | H : context [match ?m !! ?k with _ => _ end] |- _ => destruct (m !! k) eqn:?
  end.

Ltac created H :=
  repeat break_guard; try discriminate H;
  injection H as <- <-; simpl; rewrite lookup_insert_eq; reflexivity.

(** * The rest of the canister *)

(** ** Queries by owner

    [doctor.owner.toText() === ic.caller().toText()] compares the textual
    forms, which is how a [Principal] is kept here.  The list the filter
    leaves is either empty, and the handler answers [NotFound], or has a
    first element, [doctorProfiles[0]], and the handler answers it. *)

Definition getDoctorByOwner (caller : Principal) (st : State) : Result Doctor.t Message :=
  let doctorProfiles :=
    List.filter (fun doctor => bool_decide (Doctor.owner doctor = caller))
      (values (Doctors st)) in
  match doctorProfiles with
  | [] => Err (NotFound ("Doctor profile for owner=" +:+ caller +:+ " not found"))
  | first :: _ => Ok first
  end.

Definition getPatientByOwner (caller : Principal) (st : State) : Result Patient.t Message :=
  let patientProfiles :=
    List.filter (fun patient => bool_decide (Patient.owner patient = caller))
      (values (Patients st)) in
  match patientProfiles with
  | [] => Err (NotFound ("Patient profile for owner=" +:+ caller +:+ " not found"))
  | first :: _ => Ok first
  end.

(** ** Deletions *)

Definition deletePatient (patientId : text) (st : State) : Result Message Message * State :=
  match Patients st !! patientId with
  | None => (Err (NotFound ("Patient with id=" +:+ patientId +:+ " not found")), st)
  | Some _ =>
      (Ok (Success ("Patient with id=" +:+ patientId +:+ " deleted successfully")),
       set_Patients (delete patientId (Patients st)) st)
  end.

Definition deleteDoctor (doctorId : text) (st : State) : Result Message Message * State :=
  match Doctors st !! doctorId with
  | None => (Err (NotFound ("Doctor with id=" +:+ doctorId +:+ " not found")), st)
  | Some _ =>
      (Ok (Success ("Doctor with id=" +:+ doctorId +:+ " deleted successfully")),
       set_Doctors (delete doctorId (Doctors st)) st)
  end.

Definition deleteDepartment (departmentId : text) (st : State)
    : Result Message Message * State :=
  match Departments st !! departmentId with
  | None =>
      (Err (NotFound ("Department with id=" +:+ departmentId +:+ " not found")), st)
  | Some _ =>
      (Ok (Success ("Department with id=" +:+ departmentId +:+ " deleted successfully")),
       set_Departments (delete departmentId (Departments st)) st)
  end.

(** ** The update interface of the canister

    A [Call] is one invocation of an [update] method, with its arguments and
    with what the method reads from its environment.  [step] runs the
    handler and keeps, of its answer, whether it is an error; [run] is a
    sequence of calls, one after the other, as the host executes them. *)

Inductive Call : Type :=
| CreateDepartment (uuidv4 : text) (payload : CreateDepartmentPayload.t)
| CreateDoctor (uuidv4 : text) (caller : Principal) (payload : CreateDoctorPayload.t)
| CreatePatient (uuidv4 : text) (caller : Principal) (payload : CreatePatientPayload.t)
| CreateConsultation (uuidv4 : text) (payload : CreateConsultationPayload.t)
| CreateChat (uuidv4 : text) (payload : CreateChatPayload.t)
| UpdatePatient (patientId : text) (payload : CreatePatientPayload.t)
| DeletePatient (patientId : text)
| UpdateDoctorAvailability (doctorId : text) (availability : bool)
| UpdateDoctor (doctorId : text) (payload : CreateDoctorPayload.t)
| DeleteDoctor (doctorId : text)
| DeleteDepartment (departmentId : text)
| CreateAppointment (uuidv4 : text) (payload : CreateAppointmentPayload.t)
| UpdateAppointmentWithVideoLink (appointmentId videoLink : text)
| CreatePrescription (uuidv4 now : text) (payload : CreatePrescriptionPayload.t)
| InitiatePayment (uuidv4 : text) (payload : CreatePaymentPayload.t)
| UpdatePaymentStatus (paymentId newStatus : text)
| UpdateMedicalRecords (patientId : text) (updatedRecords : MedicalRecord.t).

Definition error_of {T : Type} (answer : Result T Message * State)
    : option Message * State :=
  (match answer.1 with Ok _ => None | Err e => Some e end, answer.2).

Definition step (c : Call) (st : State) : option Message * State :=
  match c with
  | CreateDepartment u p => error_of (createDepartment u p st)
  | CreateDoctor u caller p => error_of (createDoctor u caller p st)
  | CreatePatient u caller p => error_of (createPatient u caller p st)
  | CreateConsultation u p => error_of (createConsultation u p st)
  | CreateChat u p => error_of (createChat u p st)
  | UpdatePatient k p => error_of (updatePatient k p st)
  | DeletePatient k => error_of (deletePatient k st)
  | UpdateDoctorAvailability k a => error_of (updateDoctorAvailability k a st)
  | UpdateDoctor k p => error_of (updateDoctor k p st)
  | DeleteDoctor k => error_of (deleteDoctor k st)
  | DeleteDepartment k => error_of (deleteDepartment k st)
  | CreateAppointment u p => error_of (createAppointment u p st)
  | UpdateAppointmentWithVideoLink k link =>
      error_of (updateAppointmentWithVideoLink k link st)
  | CreatePrescription u now p => error_of (createPrescription u now p st)
  | InitiatePayment u p => error_of (initiatePayment u p st)
  | UpdatePaymentStatus k s => error_of (updatePaymentStatus k s st)
  | UpdateMedicalRecords k r => error_of (updateMedicalRecords k r st)
  end.

Fixpoint run (calls : list Call) (st : State) : State :=
  match calls with
  | [] => st
  | c :: rest => run rest (step c st).2
  end.

(** The key under which a call writes or deletes, if it does. *)
Definition key_of (c : Call) : text :=
  match c with
  | CreateDepartment u _ | CreateDoctor u _ _ | CreatePatient u _ _
  | CreateConsultation u _ | CreateChat u _ | CreateAppointment u _
  | CreatePrescription u _ _ | InitiatePayment u _ => u
  | UpdatePatient k _ | DeletePatient k | UpdateDoctorAvailability k _
  | UpdateDoctor k _ | DeleteDoctor k | DeleteDepartment k
  | UpdateAppointmentWithVideoLink k _ | UpdatePaymentStatus k _
  | UpdateMedicalRecords k _ => k
  end.

(** The nine stores, by name, and the one a call works on. *)
Inductive Store : Type :=
| SDepartments | SDoctors | SPatients | SConsultations | SChats
| SAppointments | SPrescriptions | SPayments | SMedicalRecords.

Definition store_of (c : Call) : Store :=
  match c with
  | CreateDepartment _ _ | DeleteDepartment _ => SDepartments
  | CreateDoctor _ _ _ | UpdateDoctorAvailability _ _ | UpdateDoctor _ _
  | DeleteDoctor _ => SDoctors
  | CreatePatient _ _ _ | UpdatePatient _ _ | DeletePatient _ => SPatients
  | CreateConsultation _ _ => SConsultations
  | CreateChat _ _ => SChats
  | CreateAppointment _ _ | UpdateAppointmentWithVideoLink _ _ => SAppointments
  | CreatePrescription _ _ _ => SPrescriptions
  | InitiatePayment _ _ | UpdatePaymentStatus _ _ => SPayments
  | UpdateMedicalRecords _ _ => SMedicalRecords
  end.

(** ** Invariants of the stores *)

(** Every record is stored under its own [id]. *)
Definition keys_are_ids (st : State) : Prop :=
  (∀ k r, Departments st !! k = Some r → Department.id r = k)
  ∧ (∀ k r, Doctors st !! k = Some r → Doctor.id r = k)
  ∧ (∀ k r, Patients st !! k = Some r → Patient.id r = k)
  ∧ (∀ k r, Consultations st !! k = Some r → Consultation.id r = k)
  ∧ (∀ k r, Chats st !! k = Some r → Chat.id r = k)
  ∧ (∀ k r, Appointments st !! k = Some r → Appointment.id r = k)
  ∧ (∀ k r, Prescriptions st !! k = Some r → Prescription.id r = k)
  ∧ (∀ k r, Payments st !! k = Some r → Payment.id r = k).

(** No department has an empty name, and no two stored departments have the
    same name. *)
Definition department_names_distinct (st : State) : Prop :=
  (∀ k d, Departments st !! k = Some d → Department.name d ≠ "")
  ∧ (∀ k1 k2 d1 d2,
       Departments st !! k1 = Some d1 → Departments st !! k2 = Some d2 →
       Department.name d1 = Department.name d2 → k1 = k2).

(** What the create handlers checked stays true of the records that no
    handler rewrites from a payload. *)
Definition validated_records (st : State) : Prop :=
  (∀ k r, Consultations st !! k = Some r →
     Consultation.patient_id r ≠ "" ∧ Consultation.problem r ≠ ""
     ∧ Consultation.department_id r ≠ "")
  ∧ (∀ k r, Chats st !! k = Some r →
     Chat.patient_id r ≠ "" ∧ Chat.doctor_id r ≠ "" ∧ Chat.message r ≠ ""
     ∧ Chat.timestamp r ≠ "")
  ∧ (∀ k r, Appointments st !! k = Some r →
     Appointment.patient_id r ≠ "" ∧ Appointment.doctor_id r ≠ ""
     ∧ Appointment.reason r ≠ "" ∧ Appointment.appointment_time r ≠ ""
     ∧ Appointment.status r = "scheduled" ∧ Appointment.video_link r ≠ Some "")
  ∧ (∀ k r, Prescriptions st !! k = Some r →
     Prescription.patient_id r ≠ "" ∧ Prescription.doctor_id r ≠ ""
     ∧ Prescription.instructions r ≠ "")
  ∧ (∀ k r, Payments st !! k = Some r →
     Payment.patient_id r ≠ "" ∧ Payment.appointment_id r ≠ ""
     ∧ Payment.amount r ≠ 0%N ∧ Payment.payment_method r ≠ "").

(** Consultations, chats, appointments, prescriptions, payments and medical
    records have no delete: from [st] to [st'] no key of theirs is lost. *)
Definition nothing_removed (st st' : State) : Prop :=
  (∀ k, is_Some (Consultations st !! k) → is_Some (Consultations st' !! k))
  ∧ (∀ k, is_Some (Chats st !! k) → is_Some (Chats st' !! k))
  ∧ (∀ k, is_Some (Appointments st !! k) → is_Some (Appointments st' !! k))
  ∧ (∀ k, is_Some (Prescriptions st !! k) → is_Some (Prescriptions st' !! k))
  ∧ (∀ k, is_Some (Payments st !! k) → is_Some (Payments st' !! k))
  ∧ (∀ k, is_Some (MedicalRecords st !! k) → is_Some (MedicalRecords st' !! k)).

(** The call [c] is a create, on one of the five stores that have no delete,
    that stores its record under the key [k]. *)
Definition creates_under (k : text) (c : Call) : Prop :=
  match c with
  | CreateConsultation u _ | CreateChat u _ | CreateAppointment u _
  | CreatePrescription u _ _ | InitiatePayment u _ => u = k
  | _ => False
  end.

(** What is under the key [k] in [st] is still there in [st']: a
    consultation, a chat and a prescription as they were, an appointment up
    to its video link, a payment up to its status. *)
Definition kept_as_created (k : text) (st st' : State) : Prop :=
  (∀ r, Consultations st !! k = Some r → Consultations st' !! k = Some r)
  ∧ (∀ r, Chats st !! k = Some r → Chats st' !! k = Some r)
  ∧ (∀ r, Prescriptions st !! k = Some r → Prescriptions st' !! k = Some r)
  ∧ (∀ r, Appointments st !! k = Some r →
       ∃ r', Appointments st' !! k = Some r'
             ∧ Appointment.id r' = Appointment.id r
             ∧ Appointment.patient_id r' = Appointment.patient_id r
             ∧ Appointment.doctor_id r' = Appointment.doctor_id r
             ∧ Appointment.reason r' = Appointment.reason r
             ∧ Appointment.appointment_time r' = Appointment.appointment_time r
             ∧ Appointment.status r' = Appointment.status r)
  ∧ (∀ r, Payments st !! k = Some r →
       ∃ r', Payments st' !! k = Some r'
             ∧ Payment.id r' = Payment.id r
             ∧ Payment.appointment_id r' = Payment.appointment_id r
             ∧ Payment.patient_id r' = Payment.patient_id r
             ∧ Payment.amount r' = Payment.amount r
             ∧ Payment.payment_method r' = Payment.payment_method r).

Definition samplePayment : Payment.t :=
  Payment.mk "pay-1" "a-1" "p-1" 120 "pending" "credit_card".

Definition clinicWithPayment : State :=
  set_Payments {[ "pay-1" := samplePayment ]} clinic.

(** ** More of JavaScript's numbers *)

Module JsMath.

Local Open Scope Z_scope.

Definition sub (x y : spec_float) : spec_float := SFsub Js.prec Js.emax x y.
Definition add (x y : spec_float) : spec_float := SFadd Js.prec Js.emax x y.

(** The integer [m * 2^e] taken with its sign. *)
Definition signed (s : bool) (m : positive) : Z := if s then Z.neg m else Z.pos m.

(** [Math.round(x)]: the integer nearest to [x], the one toward +∞ of two
    that are equally near; a NaN, an infinity, a zero and an integer are
    returned as they are, and a negative [x] that rounds to zero gives -0. *)
Definition round (x : spec_float) : spec_float :=
  match x with
  | S754_finite s m e =>
      if 0 <=? e then x
      else binary_normalize Js.prec Js.emax
             ((2 * signed s m + 2 ^ (- e)) / 2 ^ (1 - e)) 0 s
  | _ => x
  end.

(** [BigInt(x)] of a number: the integer that [x] is, and a [RangeError],
    [None] here, when [x] is not an integer. *)
Definition BigInt (x : spec_float) : option Z :=
  match x with
  | S754_zero _ => Some 0
  | S754_finite s m e =>
      if 0 <=? e then Some (signed s m * 2 ^ e)
      else if Z.pos m mod 2 ^ (- e) =? 0 then Some (signed s m / 2 ^ (- e))
      else None
  | S754_infinity _ | S754_nan => None
  end.

End JsMath.

(** ** The insurance estimate

    The handler's [bigint] is returned as it is; [None] stands for the
    [RangeError] of [BigInt] on a number that is not an integer.  Fitting the
    [bigint] into the [nat64] of the reply is the host's encoder's work. *)
Definition estimateInsuranceCost (baseCost : nat64) (hasInsurance : bool)
    : option (Result Z Message) :=
  let discountRate := if hasInsurance then Js.literal 2 1 else Js.literal 0 1 in
  let discountAmount := Js.mul (Js.Number baseCost) discountRate in
  let totalCost := JsMath.sub (Js.Number baseCost) discountAmount in
  match JsMath.BigInt (JsMath.round totalCost) with
  | Some totalCostBigInt => Some (Ok totalCostBigInt)
  | None => None
  end.

(** ** References between the stores *)

(** Every reference held in a stored record has a record: the department of
    a doctor, the patient and department of a consultation, the patient and
    doctor of a chat, an appointment and a prescription, the patient and
    appointment of a payment. *)
Definition references_resolve (st : State) : Prop :=
  (∀ k r, Doctors st !! k = Some r → is_Some (Departments st !! Doctor.department_id r))
  ∧ (∀ k r, Consultations st !! k = Some r →
       is_Some (Patients st !! Consultation.patient_id r)
       ∧ is_Some (Departments st !! Consultation.department_id r))
  ∧ (∀ k r, Chats st !! k = Some r →
       is_Some (Patients st !! Chat.patient_id r)
       ∧ is_Some (Doctors st !! Chat.doctor_id r))
  ∧ (∀ k r, Appointments st !! k = Some r →
       is_Some (Patients st !! Appointment.patient_id r)
       ∧ is_Some (Doctors st !! Appointment.doctor_id r))
  ∧ (∀ k r, Prescriptions st !! k = Some r →
       is_Some (Patients st !! Prescription.patient_id r)
       ∧ is_Some (Doctors st !! Prescription.doctor_id r))
  ∧ (∀ k r, Payments st !! k = Some r →
       is_Some (Patients st !! Payment.patient_id r)
       ∧ is_Some (Appointments st !! Payment.appointment_id r)).

(** The calls that can leave a reference without a record: the three
    deletes, and [updateDoctor], which takes a department id without
    looking it up. *)
Definition may_break_references (c : Call) : Prop :=
  match c with
  | DeletePatient _ | DeleteDoctor _ | DeleteDepartment _ | UpdateDoctor _ _ => True
  | _ => False
  end.

(** * Properties *)

(** ** The store *)

Lemma values_empty {V : Type} : values (∅ : gmap string V) = [].
Proof. unfold values. by rewrite map_to_list_empty. Qed.

Lemma elem_of_values {V : Type} (m : gmap string V) (v : V) :
  v ∈ values m ↔ ∃ k, m !! k = Some v.
Proof.
  unfold values. rewrite list_elem_of_fmap. split.
  - intros [[k w] [-> Hin]]. exists k. by apply elem_of_map_to_list.
  - intros [k Hk]. exists (k, v). split; [done|]. by apply elem_of_map_to_list.
Qed.

Lemma length_values {V : Type} (m : gmap string V) : length (values m) = size m.
Proof. unfold values. by rewrite length_fmap, length_map_to_list. Qed.

Lemma name_in_use_spec (name : string) (l : list Department.t) :
  name_in_use name l = true ↔ ∃ d, d ∈ l ∧ Department.name d = name.
Proof.
  induction l as [|d l IH]; simpl.
  - split; [discriminate|]. intros [d [Hd _]]. by apply elem_of_nil in Hd.
  - case_bool_decide as Hn.
    + split; [|done]. intros _. exists d. split; [left|done].
    + rewrite IH. split.
      * intros [d' [Hin Hd']]. exists d'. split; [by right|done].
      * intros [d' [Hin Hd']]. apply elem_of_cons in Hin as [->|Hin]; [done|].
        by exists d'.
Qed.

Lemma name_in_use_values (name : string) (m : gmap string Department.t) :
  name_in_use name (values m) = true ↔
  ∃ k d, m !! k = Some d ∧ Department.name d = name.
Proof.
  rewrite name_in_use_spec. split.
  - intros [d [Hin Hd]]. apply elem_of_values in Hin as [k Hk]. by exists k, d.
  - intros [k [d [Hk Hd]]]. exists d. split; [|done]. apply elem_of_values. by exists k.
Qed.

Lemma not_text_true (s : string) : not_text s = true ↔ s = "".
Proof. unfold not_text. by rewrite bool_decide_eq_true. Qed.

Lemma not_text_false (s : string) : not_text s = false ↔ s ≠ "".
Proof. unfold not_text. by rewrite bool_decide_eq_false. Qed.

Lemma all_or_NotFound_intro {A : Type} (l : list A) (msg : string) :
  all_or_NotFound l (if (length l =? 0)%nat then Err (NotFound msg) else Ok l).
Proof.
  unfold all_or_NotFound. destruct l as [|x l]; simpl.
  - split; [by exists msg|discriminate].
  - split; [done|discriminate].
Qed.

(** ** Queries over sequences *)

(** C6: each of the nine list-all and filter queries answers [NotFound] when
    the sequence of stored values (after the query's filter, if it has one)
    is empty, answers [Ok] of that whole sequence otherwise, and never
    answers [Ok] of an empty list.  The two name searches are taken with any
    lower-casing function. *)
Theorem list_queries_all_or_NotFound (toLowerCase : string → string) (st : State)
    (departmentId patientId name : string) :
  all_or_NotFound (values (Departments st)) (getAllDepartments st)
  ∧ all_or_NotFound (values (Doctors st)) (getAllDoctors st)
  ∧ all_or_NotFound (values (Patients st)) (getAllPatients st)
  ∧ all_or_NotFound (values (Consultations st)) (getAllConsultations st)
  ∧ all_or_NotFound (values (Chats st)) (getAllChats st)
  ∧ all_or_NotFound
      (List.filter (λ doctor, bool_decide (Doctor.department_id doctor = departmentId))
         (values (Doctors st)))
      (getDoctorByDepartment departmentId st)
  ∧ all_or_NotFound
      (List.filter
         (λ doctor, includes (toLowerCase (Doctor.name doctor)) (toLowerCase name))
         (values (Doctors st)))
      (searchDoctorByName toLowerCase name st)
  ∧ all_or_NotFound
      (List.filter
         (λ department,
            includes (toLowerCase (Department.name department)) (toLowerCase name))
         (values (Departments st)))
      (searchDepartmentByName toLowerCase name st)
  ∧ all_or_NotFound
      (List.filter
         (λ consultation, bool_decide (Consultation.patient_id consultation = patientId))
         (values (Consultations st)))
      (getConsultationHistoryByPatient patientId st).
Proof.
  repeat apply conj; apply all_or_NotFound_intro.
Qed.

(** ** Create, then read *)

(** C7: when a create handler answers [Ok] of a record, reading the store
    right after it under that record's id gives back [Ok] of the same
    record.  Departments, doctors, patients, consultations and chats have a
    get-by-id handler; for appointments, prescriptions and payments, which
    have none in the source, the read is the lookup of their map. *)
Theorem get_after_create (uuid caller now : string) (st st' : State) :
  (∀ payload r, createDepartment uuid payload st = (Ok r, st') →
      getDepartmentById (Department.id r) st' = Ok r)
  ∧ (∀ payload r, createDoctor uuid caller payload st = (Ok r, st') →
      getDoctorById (Doctor.id r) st' = Ok r)
  ∧ (∀ payload r, createPatient uuid caller payload st = (Ok r, st') →
      getPatientById (Patient.id r) st' = Ok r)
  ∧ (∀ payload r, createConsultation uuid payload st = (Ok r, st') →
      getConsultationById (Consultation.id r) st' = Ok r)
  ∧ (∀ payload r, createChat uuid payload st = (Ok r, st') →
      getChatById (Chat.id r) st' = Ok r)
  ∧ (∀ payload r, createAppointment uuid payload st = (Ok r, st') →
      Appointments st' !! Appointment.id r = Some r)
  ∧ (∀ payload r, createPrescription uuid now payload st = (Ok r, st') →
      Prescriptions st' !! Prescription.id r = Some r)
  ∧ (∀ payload r, initiatePayment uuid payload st = (Ok r, st') →
      Payments st' !! Payment.id r = Some r).
Proof.
  repeat apply conj; intros payload r H.
  - unfold createDepartment in H. unfold getDepartmentById. created H.
  - unfold createDoctor in H. unfold getDoctorById. created H.
  - unfold createPatient in H. unfold getPatientById. created H.
  - unfold createConsultation in H. unfold getConsultationById. created H.
  - unfold createChat in H. unfold getChatById. created H.
  - unfold createAppointment in H. created H.
  - unfold createPrescription in H. created H.
  - unfold initiatePayment in H. created H.
Qed.

Lemma get_after_create_witness :
  getPatientById "p-1" (set_Patients {[ "p-1" := samplePatient ]} emptyState)
  = Ok samplePatient.
Proof.
  apply (proj1 (proj2 (proj2
    (get_after_create "p-1" "aaaaa-aa" "" emptyState
       (set_Patients {[ "p-1" := samplePatient ]} emptyState))))
    samplePatientPayload samplePatient).
  reflexivity.
Defined.

(** ** Updates keep identity *)

(** C9: a successful [updatePatient] or [updateDoctor] on an existing record
    keeps the record's [id] and [owner]: the handler succeeds, the record
    it returns and stores under the same key carries the [id] and [owner] of
    the record found there, and every other field that the payload has is
    the payload's. *)
Theorem update_keeps_id_and_owner (st : State) (key : string) :
  (∀ (payload : CreatePatientPayload.t) (old : Patient.t),
      Patients st !! key = Some old →
      ∃ new st',
        updatePatient key payload st = (Ok new, st')
        ∧ Patients st' !! key = Some new
        ∧ Patient.id new = Patient.id old
        ∧ Patient.owner new = Patient.owner old
        ∧ Patient.name new = CreatePatientPayload.name payload)
  ∧ (∀ (payload : CreateDoctorPayload.t) (old : Doctor.t),
      Doctors st !! key = Some old →
      ∃ new st',
        updateDoctor key payload st = (Ok new, st')
        ∧ Doctors st' !! key = Some new
        ∧ Doctor.id new = Doctor.id old
        ∧ Doctor.owner new = Doctor.owner old
        ∧ Doctor.name new = CreateDoctorPayload.name payload).
Proof.
  split; intros payload old Hold.
  - unfold updatePatient. rewrite Hold. eexists _, _. split; [reflexivity|].
    simpl. by rewrite lookup_insert_eq.
  - unfold updateDoctor. rewrite Hold. eexists _, _. split; [reflexivity|].
    simpl. by rewrite lookup_insert_eq.
Qed.

Lemma update_keeps_id_and_owner_witness :
  ∃ new st',
    updatePatient "p-1" renamedPatientPayload
      (set_Patients {[ "p-1" := samplePatient ]} emptyState) = (Ok new, st')
    ∧ Patients st' !! "p-1" = Some new
    ∧ Patient.id new = "p-1"
    ∧ Patient.owner new = "aaaaa-aa"
    ∧ Patient.name new = "Ann B.".
Proof.
  apply (proj1 (update_keeps_id_and_owner
                  (set_Patients {[ "p-1" := samplePatient ]} emptyState) "p-1")
           renamedPatientPayload samplePatient).
  reflexivity.
Defined.

(** ** Medical records *)

(** C10: [updateMedicalRecords patientId records] always answers
    [Ok records] and leaves [records] stored under the key [patientId],
    whatever the state: no medical record, no patient under that key, and a
    [patient_id] inside [records] that differs from the key do not stop it.
    Any earlier entry under the key is replaced, the other keys and the
    other eight stores are untouched. *)
Theorem updateMedicalRecords_unconditional (patientId : string)
    (records : MedicalRecord.t) (st : State) :
  let out := updateMedicalRecords patientId records st in
  out.1 = Ok records
  ∧ MedicalRecords out.2 = <[patientId := records]> (MedicalRecords st)
  ∧ MedicalRecords out.2 !! patientId = Some records
  ∧ getMedicalRecordsByPatient patientId out.2 = Ok records
  ∧ out.2 = set_MedicalRecords (MedicalRecords out.2) st.
Proof.
  simpl. unfold getMedicalRecordsByPatient. simpl.
  rewrite lookup_insert_eq. repeat split.
Qed.

(** An instance of C10 on the empty canister: no patient, no earlier record,
    and a record whose own [patient_id] is not the key. *)
Example updateMedicalRecords_on_empty :
  let records := MedicalRecord.mk "someone-else" ["note"] [] [] [] in
  Patients emptyState !! "p-404" = None
  ∧ MedicalRecords emptyState !! "p-404" = None
  ∧ updateMedicalRecords "p-404" records emptyState
    = (Ok records, set_MedicalRecords {[ "p-404" := records ]} emptyState).
Proof. repeat split. Qed.


(** ** References that do not resolve *)

Lemma includes_unfold (s search : string) :
  includes s search =
  if String.prefix search s then true
  else match s with EmptyString => false | String _ s' => includes s' search end.
Proof. by destruct s. Qed.

Lemma prefix_app (b c : string) : String.prefix b (b +:+ c) = true.
Proof.
  induction b as [|a b IH]; simpl; [by destruct c|].
  destruct (ascii_dec a a); [exact IH|congruence].
Qed.

Lemma includes_app (a b c : string) : includes (a +:+ (b +:+ c)) b = true.
Proof.
  induction a as [|x a IH].
  - change ("" +:+ (b +:+ c)) with (b +:+ c).
    rewrite includes_unfold. by rewrite prefix_app.
  - change (String x a +:+ (b +:+ c)) with (String x (a +:+ (b +:+ c))).
    rewrite includes_unfold. destruct (String.prefix _ _); [done|exact IH].
Qed.

Lemma app_assoc_string (a b c : string) : (a +:+ b) +:+ c = a +:+ (b +:+ c).
Proof.
  induction a as [|x a IH]; [done|].
  change (String x ((a +:+ b) +:+ c) = String x (a +:+ (b +:+ c))). by rewrite IH.
Qed.

Lemma not_found_names_id (kind id : string) : includes (not_found kind id) id = true.
Proof.
  unfold not_found. rewrite <- app_assoc_string. apply includes_app.
Qed.

Lemma two_reference_guard {T V1 V2 : Type} (g : bool) (missing : Prop)
    (o1 : option V1) (o2 : option V2) (kind1 id1 kind2 id2 : string)
    (ok : Result T Message * State) (st : State) :
  (g = true ↔ missing) →
  o1 = None ∨ o2 = None →
  ∃ msg,
    (if g then (Err (InvalidPayload "Missing required fields"), st)
     else match o1 with
          | None => (Err (InvalidPayload (not_found kind1 id1)), st)
          | Some _ =>
              match o2 with
              | None => (Err (InvalidPayload (not_found kind2 id2)), st)
              | Some _ => ok
              end
          end) = (Err (InvalidPayload msg), st)
    ∧ reference_error msg missing kind1 id1 (o1 = None) kind2 id2 (o2 = None).
Proof.
  intros Hg Hun. unfold reference_error. destruct g.
  - eexists. split; [done|]. left. split; [by apply Hg|done].
  - assert (¬ missing) as Hm by (intros Hm; apply Hg in Hm; discriminate).
    destruct o1 as [v1|].
    + destruct o2 as [v2|].
      * by destruct Hun.
      * eexists. split; [done|]. right; right. done.
    + eexists. split; [done|]. right; left. done.
Qed.

(** C1, amended: whenever a referenced id of a create on Consultation, Chat,
    Appointment, Prescription or Payment has no record, the handler answers
    an [InvalidPayload] error and returns the state it was given, so no
    store is changed.  The error reads "Missing required fields" when a
    required field of the payload is falsy (an empty text, for a payment
    also the amount 0); otherwise it names the first reference, in the order
    patient, then department, doctor or appointment, that has no record. *)
Theorem unresolved_reference_is_rejected (uuid now : string) (st : State) :
  (∀ p : CreateConsultationPayload.t,
      let pid := CreateConsultationPayload.patient_id p in
      let did := CreateConsultationPayload.department_id p in
      Patients st !! pid = None ∨ Departments st !! did = None →
      ∃ msg, createConsultation uuid p st = (Err (InvalidPayload msg), st)
        ∧ reference_error msg
            (pid = "" ∨ CreateConsultationPayload.problem p = "" ∨ did = "")
            "Patient" pid (Patients st !! pid = None)
            "Department" did (Departments st !! did = None))
  ∧ (∀ p : CreateChatPayload.t,
      let pid := CreateChatPayload.patient_id p in
      let did := CreateChatPayload.doctor_id p in
      Patients st !! pid = None ∨ Doctors st !! did = None →
      ∃ msg, createChat uuid p st = (Err (InvalidPayload msg), st)
        ∧ reference_error msg
            (pid = "" ∨ did = "" ∨ CreateChatPayload.message p = ""
             ∨ CreateChatPayload.timestamp p = "")
            "Patient" pid (Patients st !! pid = None)
            "Doctor" did (Doctors st !! did = None))
  ∧ (∀ p : CreateAppointmentPayload.t,
      let pid := CreateAppointmentPayload.patient_id p in
      let did := CreateAppointmentPayload.doctor_id p in
      Patients st !! pid = None ∨ Doctors st !! did = None →
      ∃ msg, createAppointment uuid p st = (Err (InvalidPayload msg), st)
        ∧ reference_error msg
            (pid = "" ∨ did = "" ∨ CreateAppointmentPayload.reason p = ""
             ∨ CreateAppointmentPayload.appointment_time p = "")
            "Patient" pid (Patients st !! pid = None)
            "Doctor" did (Doctors st !! did = None))
  ∧ (∀ p : CreatePrescriptionPayload.t,
      let pid := CreatePrescriptionPayload.patient_id p in
      let did := CreatePrescriptionPayload.doctor_id p in
      Patients st !! pid = None ∨ Doctors st !! did = None →
      ∃ msg, createPrescription uuid now p st = (Err (InvalidPayload msg), st)
        ∧ reference_error msg
            (pid = "" ∨ did = "" ∨ CreatePrescriptionPayload.instructions p = "")
            "Patient" pid (Patients st !! pid = None)
            "Doctor" did (Doctors st !! did = None))
  ∧ (∀ p : CreatePaymentPayload.t,
      let pid := CreatePaymentPayload.patient_id p in
      let aid := CreatePaymentPayload.appointment_id p in
      Patients st !! pid = None ∨ Appointments st !! aid = None →
      ∃ msg, initiatePayment uuid p st = (Err (InvalidPayload msg), st)
        ∧ reference_error msg
            (pid = "" ∨ aid = "" ∨ CreatePaymentPayload.amount p = 0%N
             ∨ CreatePaymentPayload.payment_method p = "")
            "Patient" pid (Patients st !! pid = None)
            "Appointment" aid (Appointments st !! aid = None))
  ∧ (∀ kind id, includes (not_found kind id) id = true).
Proof.
  repeat apply conj; try (intros kind id; apply not_found_names_id);
    intros p pid did Hun.
  - refine (two_reference_guard _ _ _ _ "Patient" pid "Department" did _ st _ Hun).
    rewrite !orb_true_iff, !not_text_true. tauto.
  - refine (two_reference_guard _ _ _ _ "Patient" pid "Doctor" did _ st _ Hun).
    rewrite !orb_true_iff, !not_text_true. tauto.
  - refine (two_reference_guard _ _ _ _ "Patient" pid "Doctor" did _ st _ Hun).
    rewrite !orb_true_iff, !not_text_true. tauto.
  - refine (two_reference_guard _ _ _ _ "Patient" pid "Doctor" did _ st _ Hun).
    rewrite !orb_true_iff, !not_text_true. unfold not_vec.
    split; [intros [[[?|?]|?]|?]; try discriminate; tauto | tauto].
  - refine (two_reference_guard _ _ _ _ "Patient" pid "Appointment" did _ st _ Hun).
    rewrite !orb_true_iff, !not_text_true. unfold not_nat64. rewrite N.eqb_eq. tauto.
Qed.

Lemma unresolved_reference_is_rejected_witness :
  ∃ msg,
    createChat "chat-1" (CreateChatPayload.mk "p-1" "doc-404" "hello" "09:00") clinic
    = (Err (InvalidPayload msg), clinic)
    ∧ reference_error msg
        ("p-1" = "" ∨ "doc-404" = "" ∨ "hello" = "" ∨ "09:00" = "")
        "Patient" "p-1" (Patients clinic !! "p-1" = None)
        "Doctor" "doc-404" (Doctors clinic !! "doc-404" = None).
Proof.
  apply (proj1 (proj2 (unresolved_reference_is_rejected "chat-1" "" clinic))
           (CreateChatPayload.mk "p-1" "doc-404" "hello" "09:00")).
  right. reflexivity.
Defined.

(** C1 as it was stated fails where a required field is empty as well: the
    patient and the department of this consultation payload have no
    record, and the error, "Missing required fields", names neither id. *)
Lemma unresolved_reference_not_named :
  Patients emptyState !! "p-404" = None
  ∧ Departments emptyState !! "d-404" = None
  ∧ createConsultation "c-1" (CreateConsultationPayload.mk "p-404" "" "d-404") emptyState
    = (Err (InvalidPayload "Missing required fields"), emptyState)
  ∧ includes "Missing required fields" "p-404" = false
  ∧ includes "Missing required fields" "d-404" = false.
Proof. repeat split. Qed.

(** ** Updates of an absent id *)

(** C2, amended: [updatePatient], [updateDoctor], [updateDoctorAvailability]
    and [updatePaymentStatus], and [updateAppointmentWithVideoLink] when the
    video link is not empty, answer [NotFound] and return the state they
    were given when no record is stored under the id.  With an empty video
    link [updateAppointmentWithVideoLink] answers [InvalidPayload] before it
    looks the id up, the state again unchanged.  [updateMedicalRecords]
    looks nothing up: it answers [Ok] and stores the record under the key. *)
Theorem update_of_absent_id (st : State) (key : string) :
  (∀ payload, Patients st !! key = None →
      updatePatient key payload st
      = (Err (NotFound ("Patient with id=" +:+ key +:+ " not found")), st))
  ∧ (∀ payload, Doctors st !! key = None →
      updateDoctor key payload st
      = (Err (NotFound ("Doctor with id=" +:+ key +:+ " not found")), st))
  ∧ (∀ availability, Doctors st !! key = None →
      updateDoctorAvailability key availability st
      = (Err (NotFound ("Doctor with id=" +:+ key +:+ " not found")), st))
  ∧ (∀ newStatus, Payments st !! key = None →
      updatePaymentStatus key newStatus st
      = (Err (NotFound ("Payment with id=" +:+ key +:+ " not found")), st))
  ∧ (∀ videoLink, Appointments st !! key = None → videoLink ≠ "" →
      updateAppointmentWithVideoLink key videoLink st
      = (Err (NotFound ("Appointment with id=" +:+ key +:+ " not found")), st))
  ∧ updateAppointmentWithVideoLink key "" st
    = (Err (InvalidPayload "Missing required fields"), st)
  ∧ (∀ records,
      updateMedicalRecords key records st
      = (Ok records, set_MedicalRecords (<[key := records]> (MedicalRecords st)) st)).
Proof.
  repeat apply conj.
  - intros payload H. unfold updatePatient. by rewrite H.
  - intros payload H. unfold updateDoctor. by rewrite H.
  - intros availability H. unfold updateDoctorAvailability. by rewrite H.
  - intros newStatus H. unfold updatePaymentStatus. by rewrite H.
  - intros videoLink H Hne. unfold updateAppointmentWithVideoLink.
    apply not_text_false in Hne. rewrite Hne. simpl. by rewrite H.
  - reflexivity.
  - reflexivity.
Qed.

Lemma update_of_absent_id_witness :
  updatePaymentStatus "pay-404" "completed" clinic
  = (Err (NotFound "Payment with id=pay-404 not found"), clinic).
Proof.
  apply (proj1 (proj2 (proj2 (proj2 (update_of_absent_id clinic "pay-404"))))
           "completed").
  reflexivity.
Defined.

(** C2 as it was stated fails for two of the six handlers: with no medical
    record under the key, [updateMedicalRecords] answers [Ok] and the store
    holds a record afterwards; with no appointment under the id and an empty
    video link, [updateAppointmentWithVideoLink] answers [InvalidPayload],
    not [NotFound]. *)
Lemma update_of_absent_id_not_always_NotFound :
  MedicalRecords emptyState !! "p-404" = None
  ∧ (updateMedicalRecords "p-404" sampleRecords emptyState).1 = Ok sampleRecords
  ∧ MedicalRecords (updateMedicalRecords "p-404" sampleRecords emptyState).2 !! "p-404"
    = Some sampleRecords
  ∧ Appointments emptyState !! "a-404" = None
  ∧ updateAppointmentWithVideoLink "a-404" "" emptyState
    = (Err (InvalidPayload "Missing required fields"), emptyState).
Proof. repeat split. Qed.

(** ** Department names *)

Lemma createDepartment_ok (uuid : string) (p : CreateDepartmentPayload.t) (st : State) :
  CreateDepartmentPayload.name p ≠ "" →
  (∀ k d, Departments st !! k = Some d →
          Department.name d ≠ CreateDepartmentPayload.name p) →
  let department :=
    Department.mk uuid (CreateDepartmentPayload.name p)
      (CreateDepartmentPayload.description p) in
  createDepartment uuid p st
  = (Ok department, set_Departments (<[uuid := department]> (Departments st)) st).
Proof.
  intros Hne Hfree. unfold createDepartment.
  apply not_text_false in Hne. rewrite Hne.
  destruct (name_in_use _ _) eqn:Hin; [|done].
  apply name_in_use_values in Hin as (k & d & Hk & Hd). by destruct (Hfree k d Hk).
Qed.

Lemma createDepartment_taken (uuid : string) (p : CreateDepartmentPayload.t) (st : State) :
  (∃ k d, Departments st !! k = Some d
          ∧ Department.name d = CreateDepartmentPayload.name p) →
  ∃ msg, createDepartment uuid p st = (Err (InvalidPayload msg), st).
Proof.
  intros Htaken. unfold createDepartment.
  destruct (not_text _); [by eexists|].
  apply name_in_use_values in Htaken. rewrite Htaken. by eexists.
Qed.

(** C3, amended: a [createDepartment] whose name is the name of a stored
    department answers [InvalidPayload] and returns the state unchanged, and
    so does a second call that repeats the name of a first, successful one.
    Two calls whose names are not empty, differ from each other and from
    every stored name both succeed, and both departments are in the store
    afterwards under their identifiers, the two identifiers that [uuidv4]
    handed out being different. *)
Theorem department_names_are_unique (u1 u2 : string)
    (p1 p2 : CreateDepartmentPayload.t) (st : State) :
  ((∃ k d, Departments st !! k = Some d
           ∧ Department.name d = CreateDepartmentPayload.name p1) →
   ∃ msg, createDepartment u1 p1 st = (Err (InvalidPayload msg), st))
  ∧ (∀ d1 st1,
       createDepartment u1 p1 st = (Ok d1, st1) →
       CreateDepartmentPayload.name p2 = CreateDepartmentPayload.name p1 →
       createDepartment u2 p2 st1
       = (Err (InvalidPayload "Department name must be unique"), st1))
  ∧ (CreateDepartmentPayload.name p1 ≠ "" →
     CreateDepartmentPayload.name p2 ≠ "" →
     CreateDepartmentPayload.name p1 ≠ CreateDepartmentPayload.name p2 →
     (∀ k d, Departments st !! k = Some d →
             Department.name d ≠ CreateDepartmentPayload.name p1
             ∧ Department.name d ≠ CreateDepartmentPayload.name p2) →
     u1 ≠ u2 →
     ∃ d1 st1 d2 st2,
       createDepartment u1 p1 st = (Ok d1, st1)
       ∧ createDepartment u2 p2 st1 = (Ok d2, st2)
       ∧ Departments st2 !! u1 = Some d1
       ∧ Departments st2 !! u2 = Some d2
       ∧ Department.name d1 = CreateDepartmentPayload.name p1
       ∧ Department.name d2 = CreateDepartmentPayload.name p2).
Proof.
  repeat apply conj.
  - apply createDepartment_taken.
  - intros d1 st1 H1 Hsame. unfold createDepartment in H1.
    destruct (not_text (CreateDepartmentPayload.name p1)) eqn:Hn1; [discriminate H1|].
    destruct (name_in_use _ _); [discriminate H1|].
    injection H1 as <- <-. unfold createDepartment. rewrite Hsame, Hn1.
    match goal with |- context [name_in_use ?n ?l] => destruct (name_in_use n l) eqn:Hin end;
      [done|].
    assert (name_in_use (CreateDepartmentPayload.name p1)
              (values (Departments (set_Departments
                 (<[u1 := Department.mk u1 (CreateDepartmentPayload.name p1)
                            (CreateDepartmentPayload.description p1)]> (Departments st)) st)))
            = true) as Hyes; [|by rewrite Hyes in Hin].
    apply name_in_use_values. eexists u1, _. simpl. by rewrite lookup_insert_eq.
  - intros Hn1 Hn2 Hne Hfree Hu.
    eexists _, _, _, _. split; [apply createDepartment_ok; [done|]|].
    { intros k d Hk. by destruct (Hfree k d Hk). }
    split; [apply createDepartment_ok; [done|]|].
    { intros k d. simpl. rewrite lookup_insert. case_decide as Hk.
      - intros [= <-]. simpl. done.
      - intros Hd. by destruct (Hfree k d Hd). }
    simpl. rewrite lookup_insert_ne, !lookup_insert_eq by done. done.
Qed.

Lemma department_names_are_unique_witness :
  ∃ d1 st1 d2 st2,
    createDepartment "dep-1" (CreateDepartmentPayload.mk "Cardiology" "") emptyState
    = (Ok d1, st1)
    ∧ createDepartment "dep-2" (CreateDepartmentPayload.mk "cardiology" "hearts") st1
      = (Ok d2, st2)
    ∧ Departments st2 !! "dep-1" = Some d1
    ∧ Departments st2 !! "dep-2" = Some d2
    ∧ Department.name d1 = "Cardiology"
    ∧ Department.name d2 = "cardiology".
Proof.
  apply (proj2 (proj2 (department_names_are_unique "dep-1" "dep-2"
           (CreateDepartmentPayload.mk "Cardiology" "")
           (CreateDepartmentPayload.mk "cardiology" "hearts") emptyState))).
  - discriminate.
  - discriminate.
  - discriminate.
  - intros k d Hk. unfold emptyState in Hk. cbn [Departments] in Hk.
    by rewrite lookup_empty in Hk.
  - discriminate.
Defined.

(** C3 as it was stated fails for an empty name: the two names differ from
    each other, no department is stored, and the first call is refused. *)
Lemma empty_department_name_refused :
  "" ≠ "Cardiology"
  ∧ values (Departments emptyState) = []
  ∧ createDepartment "dep-1" (CreateDepartmentPayload.mk "" "no name") emptyState
    = (Err (InvalidPayload "Missing required fields"), emptyState).
Proof. repeat split. discriminate. Qed.

(** ** Required fields of a patient *)

(** C4, amended: [createPatient] answers [InvalidPayload] "Missing required
    fields" and stores nothing when the payload's name is empty.  The name
    is the only text field it looks at: with a name that is not empty it
    succeeds and stores the patient with the payload's gender, phone number,
    email and address as they are, empty or not. *)
Theorem createPatient_requires_name (uuid caller : string)
    (payload : CreatePatientPayload.t) (st : State) :
  (CreatePatientPayload.name payload = "" →
   createPatient uuid caller payload st
   = (Err (InvalidPayload "Missing required fields"), st))
  ∧ (CreatePatientPayload.name payload ≠ "" →
     ∃ patient,
       createPatient uuid caller payload st
       = (Ok patient, set_Patients (<[uuid := patient]> (Patients st)) st)
       ∧ Patient.id patient = uuid
       ∧ Patient.owner patient = caller
       ∧ Patient.gender patient = CreatePatientPayload.gender payload
       ∧ Patient.phone_number patient = CreatePatientPayload.phone_number payload
       ∧ Patient.email patient = CreatePatientPayload.email payload
       ∧ Patient.address patient = CreatePatientPayload.address payload).
Proof.
  split; intros Hname; unfold createPatient.
  - apply not_text_true in Hname. by rewrite Hname.
  - apply not_text_false in Hname. rewrite Hname. simpl. by eexists.
Qed.

Lemma createPatient_requires_name_witness :
  createPatient "p-2" "aaaaa-aa"
    (CreatePatientPayload.mk "" 30 "M" "555" "x@example.org" "3 Low St"
       sampleContact [] [] []) clinic
  = (Err (InvalidPayload "Missing required fields"), clinic).
Proof.
  apply (proj1 (createPatient_requires_name "p-2" "aaaaa-aa"
           (CreatePatientPayload.mk "" 30 "M" "555" "x@example.org" "3 Low St"
              sampleContact [] [] []) clinic)).
  reflexivity.
Defined.

(** C4 as it was stated fails for every required text field but the name:
    with gender, phone number, email and address all empty the patient is
    created and stored. *)
Lemma createPatient_accepts_empty_fields :
  let payload := CreatePatientPayload.mk "Ann" 41 "" "" "" "" sampleContact [] [] [] in
  let patient := Patient.mk "p-1" "aaaaa-aa" "Ann" 41 "" "" "" "" sampleContact [] [] [] in
  createPatient "p-1" "aaaaa-aa" payload emptyState
  = (Ok patient, set_Patients {[ "p-1" := patient ]} emptyState)
  ∧ getPatientById "p-1" (createPatient "p-1" "aaaaa-aa" payload emptyState).2
    = Ok patient.
Proof. split; reflexivity. Qed.

(** ** The amount of a payment *)

Lemma initiatePayment_zero (uuid : string) (p : CreatePaymentPayload.t) (st : State) :
  CreatePaymentPayload.amount p = 0%N →
  initiatePayment uuid p st = (Err (InvalidPayload "Missing required fields"), st).
Proof. unfold initiatePayment. intros ->. simpl. by rewrite !orb_true_r. Qed.

(** C5, amended: the only test [initiatePayment] makes on the amount is the
    presence test, which takes 0 for a missing field.  With amount 0 it
    answers [InvalidPayload] "Missing required fields" and stores nothing;
    with any other amount, the other fields not empty and the patient and
    the appointment on record, it succeeds and stores the payment with that
    amount and the status "pending". *)
Theorem initiatePayment_amount (uuid : string) (p : CreatePaymentPayload.t) (st : State) :
  (CreatePaymentPayload.amount p = 0%N →
   initiatePayment uuid p st = (Err (InvalidPayload "Missing required fields"), st))
  ∧ (CreatePaymentPayload.amount p ≠ 0%N →
     CreatePaymentPayload.patient_id p ≠ "" →
     CreatePaymentPayload.appointment_id p ≠ "" →
     CreatePaymentPayload.payment_method p ≠ "" →
     is_Some (Patients st !! CreatePaymentPayload.patient_id p) →
     is_Some (Appointments st !! CreatePaymentPayload.appointment_id p) →
     ∃ payment,
       initiatePayment uuid p st
       = (Ok payment, set_Payments (<[uuid := payment]> (Payments st)) st)
       ∧ Payment.id payment = uuid
       ∧ Payment.amount payment = CreatePaymentPayload.amount p
       ∧ Payment.status payment = "pending").
Proof.
  split; [apply initiatePayment_zero|]. unfold initiatePayment.
  - intros Ha Hp Hap Hm [pat Hpat] [app Happ].
    apply not_text_false in Hp, Hap, Hm. apply N.eqb_neq in Ha.
    unfold not_nat64. rewrite Hp, Hap, Hm, Ha, Hpat, Happ. simpl. by eexists.
Qed.

Lemma initiatePayment_amount_witness :
  ∃ payment,
    initiatePayment "pay-1" (CreatePaymentPayload.mk "p-1" "a-1" 1 "credit_card") clinic
    = (Ok payment, set_Payments (<["pay-1" := payment]> (Payments clinic)) clinic)
    ∧ Payment.id payment = "pay-1"
    ∧ Payment.amount payment = 1%N
    ∧ Payment.status payment = "pending".
Proof.
  apply (proj2 (initiatePayment_amount "pay-1"
           (CreatePaymentPayload.mk "p-1" "a-1" 1 "credit_card") clinic)).
  - discriminate.
  - discriminate.
  - discriminate.
  - discriminate.
  - by eexists.
  - by eexists.
Defined.

(** C5 as it was stated fails: a payment of amount 0 whose patient and
    appointment are on record and whose other fields are not empty is
    refused, and no payload of amount 0 is ever accepted. *)
Lemma initiatePayment_refuses_zero :
  (is_Some (Patients clinic !! "p-1") ∧ is_Some (Appointments clinic !! "a-1"))
  ∧ initiatePayment "pay-1" (CreatePaymentPayload.mk "p-1" "a-1" 0 "credit_card") clinic
    = (Err (InvalidPayload "Missing required fields"), clinic)
  ∧ ¬ (∃ uuid p st payment st',
         CreatePaymentPayload.amount p = 0%N
         ∧ initiatePayment uuid p st = (Ok payment, st')).
Proof.
  repeat split; [by eexists|by eexists|].
  intros (uuid & p & st & payment & st' & Hzero & Hok).
  by rewrite (initiatePayment_zero uuid p st Hzero) in Hok.
Qed.

(** ** Binary64 rounding

    Facts on the standard library's [SpecFloat] operations at precision 53:
    a rounded product or quotient of two normal numbers of moderate exponent
    is again such a number. *)

Section Binary64.

Local Open Scope Z_scope.

Lemma digits2_pos_size (p : positive) : digits2_pos p = Pos.size p.
Proof. induction p as [p IH|p IH|]; simpl; by rewrite ?IH. Qed.

Lemma Zdigits2_log2 (m : Z) : 0 < m → Zdigits2 m = Z.log2 m + 1.
Proof.
  destruct m as [|p|p]; try lia. intros _. simpl Zdigits2.
  rewrite digits2_pos_size. destruct p; simpl; lia.
Qed.

Lemma Zdigits2_bounds (m : Z) :
  0 < m → 2 ^ (Zdigits2 m - 1) ≤ m < 2 ^ Zdigits2 m.
Proof.
  intros Hm. rewrite Zdigits2_log2 by done.
  replace (Z.log2 m + 1 - 1) with (Z.log2 m) by lia.
  apply (Z.log2_spec m Hm).
Qed.

Lemma Zdigits2_unique (m k : Z) : 2 ^ (k - 1) ≤ m < 2 ^ k → 1 ≤ k → Zdigits2 m = k.
Proof.
  intros Hm Hk.
  assert (0 < m) by (pose proof (Z.pow_pos_nonneg 2 (k - 1)); lia).
  rewrite Zdigits2_log2 by done.
  rewrite (Z.log2_unique m (k - 1)); [lia|lia|].
  replace (Z.succ (k - 1)) with k by lia. done.
Qed.

Lemma shr_1_m (mrs : shr_record) : 0 ≤ shr_m mrs → shr_m (shr_1 mrs) = shr_m mrs / 2.
Proof.
  destruct mrs as [m r s]. cbn [shr_m shr_1]. intros Hm.
  destruct m as [|[p|p|]|p]; cbn [shr_m]; try lia;
    first [ reflexivity
          | apply (Z.div_unique _ 2 _ 1); lia
          | apply (Z.div_unique _ 2 _ 0); lia ].
Qed.

Lemma pow2_xO (n : positive) : 2 ^ Z.pos n~0 = 2 ^ Z.pos n * 2 ^ Z.pos n.
Proof. rewrite <- Z.pow_add_r by lia. f_equal. lia. Qed.

Lemma pow2_xI (n : positive) : 2 ^ Z.pos n~1 = 2 * (2 ^ Z.pos n * 2 ^ Z.pos n).
Proof.
  rewrite <- Z.pow_add_r by lia. rewrite <- Z.pow_succ_r by lia. f_equal. lia.
Qed.

Lemma iter_shr_1_m (n : positive) (mrs : shr_record) :
  0 ≤ shr_m mrs → shr_m (SpecFloat.iter_pos shr_1 n mrs) = shr_m mrs / 2 ^ Z.pos n.
Proof.
  revert mrs. induction n as [n IH|n IH|]; intros mrs Hm; simpl SpecFloat.iter_pos.
  - assert (0 ≤ shr_m (shr_1 mrs)) as H1
      by (rewrite shr_1_m by done; apply Z.div_pos; lia).
    assert (0 ≤ shr_m (SpecFloat.iter_pos shr_1 n (shr_1 mrs))) as H2
      by (rewrite IH by done; apply Z.div_pos; lia).
    rewrite IH, IH, shr_1_m by done.
    rewrite !Z.div_div by lia. by rewrite pow2_xI.
  - assert (0 ≤ shr_m (SpecFloat.iter_pos shr_1 n mrs)) as H2
      by (rewrite IH by done; apply Z.div_pos; lia).
    rewrite IH, IH by done. rewrite Z.div_div by lia. by rewrite pow2_xO.
  - rewrite shr_1_m by done. by rewrite Z.pow_1_r.
Qed.

Lemma shr_spec (mrs : shr_record) (e n : Z) :
  0 ≤ shr_m mrs →
  shr_m (shr mrs e n).1 = shr_m mrs / 2 ^ Z.max n 0 ∧ (shr mrs e n).2 = e + Z.max n 0.
Proof.
  intros Hm. destruct n as [|p|p]; simpl.
  - rewrite Z.div_1_r. lia.
  - rewrite iter_shr_1_m by done. split; [done|lia].
  - rewrite Z.div_1_r. lia.
Qed.

Lemma shr_fexp_spec (m e : Z) (l : location) :
  0 ≤ m →
  let n := Z.max (fexp Js.prec Js.emax (Zdigits2 m + e) - e) 0 in
  shr_m (shr_fexp Js.prec Js.emax m e l).1 = m / 2 ^ n
  ∧ (shr_fexp Js.prec Js.emax m e l).2 = e + n.
Proof.
  intros Hm n. unfold shr_fexp.
  assert (shr_m (shr_record_of_loc m l) = m) as Hrec by (by destruct l as [|[]]).
  destruct (shr_spec (shr_record_of_loc m l) e
              (fexp Js.prec Js.emax (Zdigits2 m + e) - e)) as [H1 H2]; [lia|].
  rewrite H1, H2, Hrec. done.
Qed.

Lemma round_nearest_even_cases (m : Z) (l : location) :
  round_nearest_even m l = m ∨ round_nearest_even m l = m + 1.
Proof. destruct l as [|[]]; simpl; try destruct (Z.even m); auto. Qed.

Lemma fexp_normal (e : Z) : -1074 ≤ e - 53 → fexp Js.prec Js.emax e = e - 53.
Proof. unfold fexp, SpecFloat.emin, Js.prec, Js.emax. lia. Qed.

(** Rounding a positive mantissa of at least 53 bits whose value lies in the
    normal range: the result is finite, has a 53-bit mantissa, and its
    exponent is the one of the truncation or one more. *)
Lemma binary_round_aux_normal (sx : bool) (mx ex : Z) (lx : location) :
  0 < mx →
  53 ≤ Zdigits2 mx →
  -1074 ≤ Zdigits2 mx + ex - 53 →
  Zdigits2 mx + ex - 53 + 1 ≤ 971 →
  ∃ m e,
    binary_round_aux Js.prec Js.emax sx mx ex lx = S754_finite sx m e
    ∧ Z.pos (digits2_pos m) = 53
    ∧ Zdigits2 mx + ex - 53 ≤ e ≤ Zdigits2 mx + ex - 53 + 1.
Proof.
  intros Hmx HD Hlo Hhi. set (D := Zdigits2 mx) in *.
  unfold binary_round_aux.
  destruct (shr_fexp_spec mx ex lx) as [Hm1 He1]; [lia|].
  destruct (shr_fexp Js.prec Js.emax mx ex lx) as [mrs' e'] eqn:Hs1.
  cbn [fst snd] in Hm1, He1.
  fold D in Hm1, He1. rewrite fexp_normal in Hm1, He1 by lia.
  replace (Z.max (D + ex - 53 - ex) 0) with (D - 53) in Hm1, He1 by lia.
  pose proof (Zdigits2_bounds mx Hmx) as Hb. fold D in Hb.
  assert (2 ^ 52 ≤ shr_m mrs' < 2 ^ 53) as Hm'.
  { rewrite Hm1.
    assert (2 ^ (D - 1) = 2 ^ 52 * 2 ^ (D - 53)) as E1
      by (rewrite <- Z.pow_add_r by lia; f_equal; lia).
    assert (2 ^ D = 2 ^ 53 * 2 ^ (D - 53)) as E2
      by (rewrite <- Z.pow_add_r by lia; f_equal; lia).
    assert (0 < 2 ^ (D - 53)) as Hp by (apply Z.pow_pos_nonneg; lia).
    split.
    - apply Z.div_le_lower_bound; lia.
    - apply Z.div_lt_upper_bound; lia. }
  set (m'' := round_nearest_even (shr_m mrs') (loc_of_shr_record mrs')).
  assert (2 ^ 52 ≤ m'' ≤ 2 ^ 53) as Hm''.
  { destruct (round_nearest_even_cases (shr_m mrs') (loc_of_shr_record mrs'))
      as [E|E]; unfold m''; rewrite E; lia. }
  destruct (shr_fexp_spec m'' e' loc_Exact) as [Hm2 He2]; [lia|].
  destruct (shr_fexp Js.prec Js.emax m'' e' loc_Exact) as [mrs'' e''] eqn:Hs2.
  cbn [fst snd] in Hm2, He2.
  destruct (Z.eq_dec m'' (2 ^ 53)) as [Htop|Htop].
  - assert (Zdigits2 m'' = 54) as Hd by (rewrite Htop; reflexivity).
    rewrite Hd, fexp_normal in Hm2, He2 by lia.
    replace (Z.max (54 + e' - 53 - e') 0) with 1 in Hm2, He2 by lia.
    rewrite Htop in Hm2. change (2 ^ 53 / 2 ^ 1) with (Z.pos (2 ^ 52)) in Hm2.
    rewrite Hm2.
    destruct (Z.leb_spec e'' (Js.emax - Js.prec)) as [_|Hbad];
      [|unfold Js.emax, Js.prec in Hbad; lia].
    eexists _, _. split; [reflexivity|]. split; [reflexivity|lia].
  - assert (Zdigits2 m'' = 53) as Hd by (apply Zdigits2_unique; lia).
    rewrite Hd, fexp_normal in Hm2, He2 by lia.
    replace (Z.max (53 + e' - 53 - e') 0) with 0 in Hm2, He2 by lia.
    rewrite Z.pow_0_r, Z.div_1_r in Hm2. rewrite Hm2.
    destruct m'' as [|p|p] eqn:Hp; try lia.
    destruct (Z.leb_spec e'' (Js.emax - Js.prec)) as [_|Hbad];
      [|unfold Js.emax, Js.prec in Hbad; lia].
    eexists _, _. split; [reflexivity|]. split; [exact Hd|lia].
Qed.

Lemma pos_digits_bounds (m : positive) :
  Z.pos (digits2_pos m) = 53 → 2 ^ 52 ≤ Z.pos m < 2 ^ 53.
Proof.
  intros Hd. pose proof (Zdigits2_bounds (Z.pos m) eq_refl) as Hb.
  cbn [Zdigits2] in Hb. rewrite Hd in Hb. exact Hb.
Qed.

Lemma mul_normal (a b c d : Z) (x y : spec_float) :
  normal a b x → normal c d y →
  -1074 ≤ a + c + 52 → b + d + 54 ≤ 971 →
  normal (a + c + 52) (b + d + 54) (Js.mul x y).
Proof.
  intros (mx & ex & -> & Hdx & Hex) (my & ey & -> & Hdy & Hey) Hlo Hhi.
  unfold Js.mul, SFmul. cbn [xorb].
  pose proof (pos_digits_bounds mx Hdx) as Hbx.
  pose proof (pos_digits_bounds my Hdy) as Hby.
  assert (2 ^ 104 ≤ Z.pos (mx * my) < 2 ^ 106) as Hp.
  { rewrite Pos2Z.inj_mul.
    change (2 ^ 104) with (2 ^ 52 * 2 ^ 52). change (2 ^ 106) with (2 ^ 53 * 2 ^ 53).
    split; [apply Z.mul_le_mono_nonneg; lia|apply Z.mul_lt_mono_nonneg; lia]. }
  assert (105 ≤ Zdigits2 (Z.pos (mx * my)) ≤ 106) as HD.
  { destruct (Z.lt_ge_cases (Z.pos (mx * my)) (2 ^ 105)) as [Hlt|Hge].
    - rewrite (Zdigits2_unique _ 105); [lia| |lia]. change (2 ^ (105 - 1)) with (2 ^ 104). lia.
    - rewrite (Zdigits2_unique _ 106); [lia| |lia]. change (2 ^ (106 - 1)) with (2 ^ 105). lia. }
  destruct (binary_round_aux_normal false (Z.pos (mx * my)) (ex + ey) loc_Exact)
    as (m & e & Hr & Hd & He); try lia.
  unfold normal. exists m, e. rewrite Hr. split; [done|]. split; [done|lia].
Qed.

Lemma div_normal (a b c d : Z) (x y : spec_float) :
  normal a b x → normal c d y →
  -1074 ≤ a - d - 53 → b - c - 51 ≤ 971 →
  normal (a - d - 53) (b - c - 51) (Js.div x y).
Proof.
  intros (mx & ex & -> & Hdx & Hex) (my & ey & -> & Hdy & Hey) Hlo Hhi.
  unfold Js.div, SFdiv. cbn [xorb].
  pose proof (pos_digits_bounds mx Hdx) as Hbx.
  pose proof (pos_digits_bounds my Hdy) as Hby.
  unfold SFdiv_core_binary. cbn [Zdigits2]. rewrite Hdx, Hdy.
  replace (53 + ex - (53 + ey)) with (ex - ey) by lia.
  rewrite fexp_normal by lia.
  replace (Z.min (ex - ey - 53) (ex - ey)) with (ex - ey - 53) by lia.
  replace (ex - ey - (ex - ey - 53)) with 53 by lia.
  rewrite Z.shiftl_mul_pow2 by lia.
  pose proof (Z_div_mod (Z.pos mx * 2 ^ 53) (Z.pos my) ltac:(lia)) as Hdm.
  destruct (Z.div_eucl (Z.pos mx * 2 ^ 53) (Z.pos my)) as [q r].
  destruct Hdm as [Hq Hr].
  assert (2 ^ 52 ≤ q < 2 ^ 54) as Hqb.
  { split.
    - assert (2 ^ 52 - 1 < q); [|lia].
      apply (Z.mul_lt_mono_pos_l (Z.pos my)); [lia|]. nia.
    - apply (Z.mul_lt_mono_pos_l (Z.pos my)); [lia|]. nia. }
  assert (53 ≤ Zdigits2 q ≤ 54) as HD.
  { destruct (Z.lt_ge_cases q (2 ^ 53)) as [Hlt|Hge].
    - rewrite (Zdigits2_unique _ 53); [lia| |lia]. change (2 ^ (53 - 1)) with (2 ^ 52). lia.
    - rewrite (Zdigits2_unique _ 54); [lia| |lia]. change (2 ^ (54 - 1)) with (2 ^ 53). lia. }
  destruct (binary_round_aux_normal false q (ex - ey - 53) (new_location (Z.pos my) r))
    as (m & e & Hres & Hd & He); try lia.
  unfold normal. exists m, e. rewrite Hres. split; [done|]. split; [done|lia].
Qed.

Lemma iter_xO_mul (d p : positive) : Z.pos (Pos.iter xO p d) = Z.pos p * 2 ^ Z.pos d.
Proof.
  induction d as [|d IH] using Pos.peano_ind.
  - simpl. lia.
  - rewrite Pos.iter_succ, Pos2Z.inj_xO, IH, Pos2Z.inj_succ, Z.pow_succ_r by lia. lia.
Qed.

Lemma shl_align_spec (mx : positive) (ex ex' : Z) :
  (shl_align mx ex ex').2 = Z.min ex ex'
  ∧ Z.pos (shl_align mx ex ex').1 = Z.pos mx * 2 ^ (ex - Z.min ex ex').
Proof.
  unfold shl_align. destruct (ex' - ex) as [|d|d] eqn:Hd; cbn [fst snd].
  - replace (ex - Z.min ex ex') with 0 by lia. rewrite Z.pow_0_r. lia.
  - replace (ex - Z.min ex ex') with 0 by lia. rewrite Z.pow_0_r. lia.
  - rewrite iter_xO_mul. replace (ex - Z.min ex ex') with (Z.pos d) by lia. lia.
Qed.

(** [Number(n)] of a bigint between 1 and 2^64 - 1 *)
Lemma Number_normal (n : N) : (0 < n < 2 ^ 64)%N → normal (-52) 12 (Js.Number n).
Proof.
  intros [Hpos Hlt]. destruct n as [|p]; [lia|].
  assert (Z.pos p < 2 ^ 64) as Hp by exact (proj1 (N2Z.inj_lt _ _) Hlt).
  unfold Js.Number, binary_normalize, binary_round. cbn [Z.of_N].
  pose proof (Zdigits2_bounds (Z.pos p) eq_refl) as Hb. cbn [Zdigits2] in Hb.
  set (D := Z.pos (digits2_pos p)) in *.
  assert (1 ≤ D ≤ 64) as HD.
  { split; [unfold D; lia|].
    destruct (Z.le_gt_cases D 64) as [|Hgt]; [done|].
    assert (2 ^ 64 ≤ 2 ^ (D - 1)) by (apply Z.pow_le_mono_r; lia). lia. }
  rewrite Z.add_0_r, fexp_normal by lia.
  destruct (shl_align_spec p 0 (D - 53)) as [Hez Hmz].
  destruct (shl_align p 0 (D - 53)) as [mz ez]. cbn [fst snd] in Hez, Hmz.
  assert (Zdigits2 (Z.pos mz) = D - ez) as Hdz.
  { apply Zdigits2_unique; [|lia]. rewrite Hmz, <- Hez.
    assert (0 < 2 ^ (0 - ez)) by (apply Z.pow_pos_nonneg; lia).
    replace (D - ez - 1) with ((D - 1) + (0 - ez)) by lia.
    replace (D - ez) with (D + (0 - ez)) by lia.
    rewrite !Z.pow_add_r by lia. nia. }
  destruct (binary_round_aux_normal false (Z.pos mz) ez loc_Exact)
    as (m & e & Hr & Hd & He); try lia.
  unfold normal. exists m, e. rewrite Hr. split; [done|]. split; [done|lia].
Qed.

Lemma literal_100_normal : normal (-46) (-46) (Js.literal 100 0).
Proof.
  exists 7036874417766400%positive, (-46). by vm_compute.
Qed.

(** For a weight and a height that are [nat64] values, the height not 0,
    [bmi] is 0 or a positive normal number below 2^80: no division by zero,
    no overflow and no NaN arise on the way. *)
Lemma bmi_value_finite (weight height : N) :
  (0 < height < 2 ^ 64)%N → (weight < 2 ^ 64)%N →
  bmi_value weight height = S754_zero false ∨ normal (-173) 27 (bmi_value weight height).
Proof.
  intros Hh Hw. unfold bmi_value.
  pose proof (div_normal _ _ _ _ _ _ (Number_normal height Hh) literal_100_normal
                ltac:(lia) ltac:(lia)) as Hm.
  pose proof (mul_normal _ _ _ _ _ _ Hm Hm ltac:(lia) ltac:(lia)) as Hsq.
  destruct (N.eq_dec weight 0%N) as [->|Hnz].
  - left. destruct Hsq as (m & e & -> & _). reflexivity.
  - right.
    pose proof (div_normal _ _ _ _ _ _ (Number_normal weight ltac:(lia)) Hsq
                  ltac:(lia) ltac:(lia)) as Hbmi.
    destruct Hbmi as (m & e & Hr & Hd & He). exists m, e. split; [done|]. split; [done|lia].
Qed.

(** On two normal numbers [x < y] compares the values. *)
Lemma ltb_normal (m1 m2 : positive) (e1 e2 : Z) :
  Z.pos (digits2_pos m1) = 53 → Z.pos (digits2_pos m2) = 53 →
  Js.ltb (S754_finite false m1 e1) (S754_finite false m2 e2) = true
  ↔ dyadic_lt m1 e1 m2 e2.
Proof.
  intros H1 H2. apply pos_digits_bounds in H1, H2.
  unfold Js.ltb, SFltb, SFcompare, dyadic_lt.
  destruct (Z.compare_spec e1 e2) as [->|Hlt|Hgt].
  - rewrite Z.min_id, Z.sub_diag, Z.pow_0_r, !Z.mul_1_r.
    change (Pos.compare_cont Eq m1 m2) with (Pos.compare m1 m2).
    destruct (Pos.compare_spec m1 m2) as [->|Hm|Hm]; split; try done; lia.
  - replace (Z.min e1 e2) with e1 by lia. rewrite Z.sub_diag, Z.pow_0_r, Z.mul_1_r.
    split; [intros _|done].
    assert (2 ^ 1 ≤ 2 ^ (e2 - e1)) by (apply Z.pow_le_mono_r; lia).
    change (2 ^ 1) with 2 in *. nia.
  - replace (Z.min e1 e2) with e2 by lia. rewrite Z.sub_diag, Z.pow_0_r, Z.mul_1_r.
    split; [done|intros Hlt].
    assert (2 ^ 1 ≤ 2 ^ (e1 - e2)) by (apply Z.pow_le_mono_r; lia).
    change (2 ^ 1) with 2 in *. nia.
Qed.

(** [nearest_scaled m e f] is within one half of [m * 2^e * 10^f], and is
    the upper one of two integers that are. *)
Lemma nearest_scaled_spec (m : positive) (e : Z) (f : nat) :
  let num := Z.pos m * 10 ^ Z.of_nat f * 2 ^ Z.max e 0 in
  let den := 2 ^ Z.max (- e) 0 in
  let n := Js.nearest_scaled m e f in
  0 ≤ n ∧ 2 * den * n - den ≤ 2 * num < 2 * den * n + den.
Proof.
  intros num den n.
  assert (0 < den) as Hden by (apply Z.pow_pos_nonneg; lia).
  assert (0 ≤ num) as Hnum.
  { unfold num. assert (0 < 10 ^ Z.of_nat f) by (apply Z.pow_pos_nonneg; lia).
    assert (0 < 2 ^ Z.max e 0) by (apply Z.pow_pos_nonneg; lia). nia. }
  unfold n, Js.nearest_scaled. fold num den.
  pose proof (Z.div_mod (2 * num + den) (2 * den) ltac:(lia)) as Hdm.
  pose proof (Z.mod_pos_bound (2 * num + den) (2 * den) ltac:(lia)) as Hmod.
  split; [apply Z.div_pos; lia|]. nia.
Qed.

Lemma toFixed_below_1e21 (m : positive) (e : Z) (f : nat) :
  Z.pos m * 2 ^ Z.max e 0 < 10 ^ 21 * 2 ^ Z.max (- e) 0 →
  Js.toFixed (S754_finite false m e) f
  = Js.fixed_digits (Z.to_N (Js.nearest_scaled m e f)) f.
Proof.
  intros Hlt. unfold Js.toFixed.
  destruct (Z.leb_spec (10 ^ 21 * 2 ^ Z.max (- e) 0) (Z.pos m * 2 ^ Z.max e 0));
    [lia|reflexivity].
Qed.

Lemma length_append (a b : string) :
  String.length (a +:+ b) = (String.length a + String.length b)%nat.
Proof.
  induction a as [|x a IH]; [done|].
  change (String x a +:+ b) with (String x (a +:+ b)). cbn [String.length]. by rewrite IH.
Qed.

Lemma length_zeros (k : nat) : String.length (Js.zeros k) = k.
Proof. induction k as [|k IH]; simpl; [done|by rewrite IH]. Qed.

Lemma length_substring (s : string) (n m : nat) :
  (n + m ≤ String.length s)%nat → String.length (substring n m s) = m.
Proof.
  revert n m. induction s as [|c s IH]; intros n m Hle.
  - cbn [String.length] in Hle. destruct n, m; simpl; try done; lia.
  - cbn [String.length] in Hle. destruct n as [|n].
    + destruct m as [|m]; [done|]. simpl. f_equal. apply (IH 0%nat). lia.
    + simpl. apply IH. lia.
Qed.

(** The text of [fixed_digits n 2] is a run of at least one character, a
    point and two characters. *)
Lemma fixed_digits_shape (n : N) :
  ∃ a b, Js.fixed_digits n 2 = a +:+ "." +:+ b
         ∧ (1 ≤ String.length a)%nat ∧ String.length b = 2%nat.
Proof.
  unfold Js.fixed_digits.
  set (m := Js.digits n).
  set (m' := if (String.length m <=? 2)%nat
             then Js.zeros (2 + 1 - String.length m) +:+ m else m).
  assert (3 ≤ String.length m')%nat as Hlen.
  { unfold m'. destruct (Nat.leb_spec (String.length m) 2) as [Hle|Hgt]; [|lia].
    rewrite length_append, length_zeros. lia. }
  cbn [Nat.eqb].
  eexists _, _. split; [reflexivity|].
  split; rewrite length_substring; lia.
Qed.

End Binary64.

(** ** The BMI calculator *)

Lemma calculateBMI_nonzero (weight height : N) :
  height ≠ 0%N →
  calculateBMI weight height
  = if negb (Js.isFinite (bmi_value weight height))
    then Err (Error "Invalid BMI calculation.")
    else Ok ("BMI is " +:+ Js.toFixed (bmi_value weight height) 2
             +:+ " - " +:+ bmi_category (bmi_value weight height)).
Proof.
  intros Hne. unfold calculateBMI. by rewrite (proj2 (N.eqb_neq _ _) Hne).
Qed.

(** C8, amended: [calculateBMI] answers the error "Height cannot be zero."
    exactly when the height is 0.  For every other height, weight and height
    being [nat64] values, the binary64 number [bmi], which is
    weight / ((height / 100) * (height / 100)) with each operation rounded,
    is 0 or a positive normal number, and the answer is [Ok] of
    "BMI is " + [bmi.toFixed(2)] + " - " + category.  The category compares
    the binary64 value with the binary64 literals 18.5, 24.9 and 29.9, and on
    normal numbers that comparison is the order of their values.  Below
    10^21 [toFixed(2)] prints the integer nearest to 100 times the binary64
    value (a tie upward) with a point before its last two digits; from
    10^21 on it prints the number in exponent notation.  Weight 70 and
    height 175 give "BMI is 22.86 - Normal Weight", weight 120 and height
    160 give "BMI is 46.87 - Obese". *)
Theorem calculateBMI_result (weight height : N) :
  (calculateBMI weight height = Err (Error "Height cannot be zero.") ↔ height = 0%N)
  ∧ ((0 < height < 2 ^ 64)%N → (weight < 2 ^ 64)%N →
     let bmi := bmi_value weight height in
     (bmi = S754_zero false ∨ normal (-173) 27 bmi)
     ∧ calculateBMI weight height
       = Ok ("BMI is " +:+ Js.toFixed bmi 2 +:+ " - " +:+ bmi_category bmi))
  ∧ Js.toFixed (S754_zero false) 2 = "0.00"
  ∧ (∀ (m : positive) (e : Z),
       let num := (Z.pos m * 10 ^ 2 * 2 ^ Z.max e 0)%Z in
       let den := (2 ^ Z.max (- e) 0)%Z in
       let n := Js.nearest_scaled m e 2 in
       (Z.pos m * 2 ^ Z.max e 0 < 10 ^ 21 * den)%Z →
       Js.toFixed (S754_finite false m e) 2 = Js.fixed_digits (Z.to_N n) 2
       ∧ (0 ≤ n ∧ 2 * den * n - den ≤ 2 * num < 2 * den * n + den)%Z
       ∧ ∃ a b, Js.fixed_digits (Z.to_N n) 2 = a +:+ "." +:+ b
                ∧ (1 ≤ String.length a)%nat ∧ String.length b = 2%nat)
  ∧ (∀ (m1 m2 : positive) (e1 e2 : Z),
       Z.pos (digits2_pos m1) = 53%Z → Z.pos (digits2_pos m2) = 53%Z →
       Js.ltb (S754_finite false m1 e1) (S754_finite false m2 e2) = true
       ↔ dyadic_lt m1 e1 m2 e2)
  ∧ calculateBMI 70 175 = Ok "BMI is 22.86 - Normal Weight"
  ∧ calculateBMI 120 160 = Ok "BMI is 46.87 - Obese".
Proof.
  repeat apply conj.
  - intros H. destruct (N.eq_dec height 0%N) as [|Hne]; [done|].
    rewrite calculateBMI_nonzero in H by done.
    destruct (negb _); discriminate H.
  - by intros ->.
  - intros Hh Hw bmi. subst bmi.
    pose proof (bmi_value_finite weight height Hh Hw) as Hfin.
    split; [exact Hfin|].
    rewrite calculateBMI_nonzero by lia.
    destruct Hfin as [->|(m & e & -> & _)]; reflexivity.
  - reflexivity.
  - intros m e num den n Hlt. split; [by apply toFixed_below_1e21|].
    split; [apply (nearest_scaled_spec m e 2)|apply fixed_digits_shape].
  - apply ltb_normal.
  - by vm_compute.
  - by vm_compute.
Qed.

Lemma calculateBMI_result_witness :
  (bmi_value 70 175 = S754_zero false ∨ normal (-173) 27 (bmi_value 70 175))
  ∧ calculateBMI 70 175
    = Ok ("BMI is " +:+ Js.toFixed (bmi_value 70 175) 2
          +:+ " - " +:+ bmi_category (bmi_value 70 175)).
Proof.
  apply (proj1 (proj2 (calculateBMI_result 70 175))).
  - split; reflexivity.
  - reflexivity.
Defined.

(** C8 as it was stated fails in two ways.  The largest weight over the
    smallest height gives a quotient above 10^21, which [toFixed] prints in
    exponent notation, not with two decimals.  And the digits are those of
    the binary64 quotient, not of the exact one: for weight 120 and height
    160 the exact quotient is 46.875, which to two decimals is 46.88, and
    the answer says 46.87. *)
Lemma calculateBMI_is_not_the_exact_text :
  calculateBMI 18446744073709551615 1 = Ok "BMI is 1.844674407370955e+23 - Obese"
  ∧ bmi_text_exact 18446744073709551615 1
    = "BMI is 184467440737095516150000.00 - Obese"
  ∧ calculateBMI 120 160 = Ok "BMI is 46.87 - Obese"
  ∧ bmi_text_exact 120 160 = "BMI is 46.88 - Obese".
Proof. repeat split; by vm_compute. Qed.

(** * Properties of the rest of the canister *)

(** ** Deletions *)

Lemma deletePatient_present (st : State) (key : string) :
  is_Some (Patients st !! key) →
  deletePatient key st
  = (Ok (Success ("Patient with id=" +:+ key +:+ " deleted successfully")),
     set_Patients (delete key (Patients st)) st).
Proof. intros [r Hr]. unfold deletePatient. by rewrite Hr. Qed.

Lemma deleteDoctor_present (st : State) (key : string) :
  is_Some (Doctors st !! key) →
  deleteDoctor key st
  = (Ok (Success ("Doctor with id=" +:+ key +:+ " deleted successfully")),
     set_Doctors (delete key (Doctors st)) st).
Proof. intros [r Hr]. unfold deleteDoctor. by rewrite Hr. Qed.

Lemma deleteDepartment_present (st : State) (key : string) :
  is_Some (Departments st !! key) →
  deleteDepartment key st
  = (Ok (Success ("Department with id=" +:+ key +:+ " deleted successfully")),
     set_Departments (delete key (Departments st)) st).
Proof. intros [r Hr]. unfold deleteDepartment. by rewrite Hr. Qed.

(** X1: a delete of an id that has no record answers [NotFound] and changes
    nothing.  A delete of an id that has one answers [Success]; after it the
    get-by-id of that id answers [NotFound], a second delete answers
    [NotFound], every other record of the store is where it was and the other
    eight stores are untouched.  This holds for patients, doctors and
    departments alike. *)
Theorem delete_removes_one_record (st : State) (key : string) :
  (Patients st !! key = None →
     deletePatient key st
     = (Err (NotFound ("Patient with id=" +:+ key +:+ " not found")), st))
  ∧ (is_Some (Patients st !! key) →
     ∃ msg st',
       deletePatient key st = (Ok (Success msg), st')
       ∧ getPatientById key st'
         = Err (NotFound ("Patient with id=" +:+ key +:+ " not found"))
       ∧ deletePatient key st'
         = (Err (NotFound ("Patient with id=" +:+ key +:+ " not found")), st')
       ∧ (∀ k, k ≠ key → Patients st' !! k = Patients st !! k)
       ∧ st' = set_Patients (Patients st') st)
  ∧ (Doctors st !! key = None →
     deleteDoctor key st
     = (Err (NotFound ("Doctor with id=" +:+ key +:+ " not found")), st))
  ∧ (is_Some (Doctors st !! key) →
     ∃ msg st',
       deleteDoctor key st = (Ok (Success msg), st')
       ∧ getDoctorById key st'
         = Err (NotFound ("Doctor with id=" +:+ key +:+ " not found"))
       ∧ deleteDoctor key st'
         = (Err (NotFound ("Doctor with id=" +:+ key +:+ " not found")), st')
       ∧ (∀ k, k ≠ key → Doctors st' !! k = Doctors st !! k)
       ∧ st' = set_Doctors (Doctors st') st)
  ∧ (Departments st !! key = None →
     deleteDepartment key st
     = (Err (NotFound ("Department with id=" +:+ key +:+ " not found")), st))
  ∧ (is_Some (Departments st !! key) →
     ∃ msg st',
       deleteDepartment key st = (Ok (Success msg), st')
       ∧ getDepartmentById key st'
         = Err (NotFound ("Department with id=" +:+ key +:+ " not found"))
       ∧ deleteDepartment key st'
         = (Err (NotFound ("Department with id=" +:+ key +:+ " not found")), st')
       ∧ (∀ k, k ≠ key → Departments st' !! k = Departments st !! k)
       ∧ st' = set_Departments (Departments st') st).
Proof.
  repeat apply conj.
  - intros H. unfold deletePatient. by rewrite H.
  - intros H. rewrite (deletePatient_present st key H). eexists _, _.
    split; [reflexivity|].
    unfold getPatientById, deletePatient. simpl. rewrite lookup_delete_eq.
    repeat split. intros k Hk. by rewrite lookup_delete_ne.
  - intros H. unfold deleteDoctor. by rewrite H.
  - intros H. rewrite (deleteDoctor_present st key H). eexists _, _.
    split; [reflexivity|].
    unfold getDoctorById, deleteDoctor. simpl. rewrite lookup_delete_eq.
    repeat split. intros k Hk. by rewrite lookup_delete_ne.
  - intros H. unfold deleteDepartment. by rewrite H.
  - intros H. rewrite (deleteDepartment_present st key H). eexists _, _.
    split; [reflexivity|].
    unfold getDepartmentById, deleteDepartment. simpl. rewrite lookup_delete_eq.
    repeat split. intros k Hk. by rewrite lookup_delete_ne.
Qed.

Lemma delete_removes_one_record_witness :
  ∃ msg st',
    deletePatient "p-1" clinic = (Ok (Success msg), st')
    ∧ getPatientById "p-1" st' = Err (NotFound "Patient with id=p-1 not found")
    ∧ deletePatient "p-1" st' = (Err (NotFound "Patient with id=p-1 not found"), st')
    ∧ (∀ k, k ≠ "p-1" → Patients st' !! k = Patients clinic !! k)
    ∧ st' = set_Patients (Patients st') clinic.
Proof.
  apply (proj1 (proj2 (delete_removes_one_record clinic "p-1"))).
  by eexists.
Defined.



(** ** Doctors *)

(** X3: [createDoctor] succeeds exactly when the name, the department id and
    the image of the payload are not empty and the department is on record.
    It then stores, under the identifier it was handed, the doctor it
    returns: the payload's three fields, that identifier, and the caller as
    owner.  In every other case it answers [InvalidPayload], "Missing
    required fields" for an empty field and otherwise the department id that
    has no record, and changes nothing. *)
Theorem createDoctor_succeeds_iff (uuid caller : string)
    (p : CreateDoctorPayload.t) (st : State) :
  let name := CreateDoctorPayload.name p in
  let dep := CreateDoctorPayload.department_id p in
  let image := CreateDoctorPayload.image p in
  let doctor := Doctor.mk uuid caller name dep image None in
  (name ≠ "" ∧ dep ≠ "" ∧ image ≠ "" ∧ is_Some (Departments st !! dep) →
   createDoctor uuid caller p st
   = (Ok doctor, set_Doctors (<[uuid := doctor]> (Doctors st)) st))
  ∧ (name = "" ∨ dep = "" ∨ image = "" →
     createDoctor uuid caller p st
     = (Err (InvalidPayload "Missing required fields"), st))
  ∧ (name ≠ "" ∧ dep ≠ "" ∧ image ≠ "" ∧ Departments st !! dep = None →
     createDoctor uuid caller p st
     = (Err (InvalidPayload ("Department with id=" +:+ dep +:+ " not found")), st))
  ∧ (∀ r st', createDoctor uuid caller p st = (Ok r, st') →
     name ≠ "" ∧ dep ≠ "" ∧ image ≠ "" ∧ is_Some (Departments st !! dep)).
Proof.
  intros name dep image doctor. unfold createDoctor. fold name dep image.
  repeat apply conj.
  - intros (Hn & Hd & Hi & [d Hdep]). apply not_text_false in Hn, Hd, Hi.
    by rewrite Hn, Hd, Hi, Hdep.
  - intros H.
    assert (not_text name || not_text dep || not_text image = true) as ->; [|done].
    rewrite !orb_true_iff, !not_text_true. tauto.
  - intros (Hn & Hd & Hi & Hdep). apply not_text_false in Hn, Hd, Hi.
    by rewrite Hn, Hd, Hi, Hdep.
  - intros r st' H.
    destruct (not_text name) eqn:Hn; [discriminate H|].
    destruct (not_text dep) eqn:Hd; [discriminate H|].
    destruct (not_text image) eqn:Hi; [discriminate H|].
    apply not_text_false in Hn, Hd, Hi. simpl in H.
    destruct (Departments st !! dep) eqn:Hdep; [|discriminate H]. by eauto.
Qed.

Lemma createDoctor_succeeds_iff_witness :
  createDoctor "doc-1" "bbbbb-bb" (CreateDoctorPayload.mk "" "dep-1" "img.png") clinic
  = (Err (InvalidPayload "Missing required fields"), clinic).
Proof.
  apply (proj1 (proj2 (createDoctor_succeeds_iff "doc-1" "bbbbb-bb"
           (CreateDoctorPayload.mk "" "dep-1" "img.png") clinic))).
  by left.
Defined.

(** ** Queries by owner *)

Lemma filter_nil_iff {A : Type} (f : A → bool) (l : list A) :
  List.filter f l = [] ↔ ∀ x, x ∈ l → f x = false.
Proof.
  induction l as [|a l IH]; simpl.
  - split; [|done]. intros _ x Hx. by apply elem_of_nil in Hx.
  - destruct (f a) eqn:Ha.
    + split; [discriminate|]. intros H. specialize (H a (list_elem_of_here _ _)).
      congruence.
    + rewrite IH. split.
      * intros H x Hx. apply elem_of_cons in Hx as [->|Hx]; [done|by apply H].
      * intros H x Hx. apply H. by right.
Qed.

Lemma filter_head {A : Type} (f : A → bool) (l : list A) (x : A) (rest : list A) :
  List.filter f l = x :: rest → x ∈ l ∧ f x = true.
Proof.
  intros H. assert (In x (List.filter f l)) as Hin by (rewrite H; by left).
  apply filter_In in Hin as [Hin Hf]. split; [by apply list_elem_of_In|done].
Qed.

(** X4: [getDoctorByOwner] and [getPatientByOwner] answer either a stored
    record whose owner is the caller or a [NotFound] error, and the error
    exactly when no stored record has the caller as owner. *)
Theorem by_owner_finds_own_record (caller : string) (st : State) :
  (∀ d, getDoctorByOwner caller st = Ok d →
        Doctor.owner d = caller ∧ ∃ k, Doctors st !! k = Some d)
  ∧ (∀ e, getDoctorByOwner caller st = Err e →
          e = NotFound ("Doctor profile for owner=" +:+ caller +:+ " not found")
          ∧ ∀ k d, Doctors st !! k = Some d → Doctor.owner d ≠ caller)
  ∧ ((∀ k d, Doctors st !! k = Some d → Doctor.owner d ≠ caller) →
     getDoctorByOwner caller st
     = Err (NotFound ("Doctor profile for owner=" +:+ caller +:+ " not found")))
  ∧ (∀ p, getPatientByOwner caller st = Ok p →
          Patient.owner p = caller ∧ ∃ k, Patients st !! k = Some p)
  ∧ (∀ e, getPatientByOwner caller st = Err e →
          e = NotFound ("Patient profile for owner=" +:+ caller +:+ " not found")
          ∧ ∀ k p, Patients st !! k = Some p → Patient.owner p ≠ caller)
  ∧ ((∀ k p, Patients st !! k = Some p → Patient.owner p ≠ caller) →
     getPatientByOwner caller st
     = Err (NotFound ("Patient profile for owner=" +:+ caller +:+ " not found"))).
Proof.
  repeat apply conj.
  - intros d. unfold getDoctorByOwner.
    destruct (List.filter _ _) as [|x rest] eqn:Hf; [discriminate|].
    intros [= <-]. apply filter_head in Hf as [Hin Hx].
    apply bool_decide_eq_true in Hx. split; [done|]. by apply elem_of_values.
  - intros e. unfold getDoctorByOwner.
    destruct (List.filter _ _) as [|x rest] eqn:Hf; [|discriminate].
    intros [= <-]. split; [done|]. intros k d Hk.
    pose proof (proj1 (filter_nil_iff _ _) Hf d) as Hd. cbv beta in Hd.
    apply (proj1 (bool_decide_eq_false _)), Hd, elem_of_values. by exists k.
  - intros Hnone. unfold getDoctorByOwner.
    assert (List.filter (λ doctor, bool_decide (Doctor.owner doctor = caller))
              (values (Doctors st)) = []) as ->; [|done].
    apply filter_nil_iff. intros d Hd. apply elem_of_values in Hd as [k Hk].
    apply bool_decide_eq_false. by apply (Hnone k).
  - intros d. unfold getPatientByOwner.
    destruct (List.filter _ _) as [|x rest] eqn:Hf; [discriminate|].
    intros [= <-]. apply filter_head in Hf as [Hin Hx].
    apply bool_decide_eq_true in Hx. split; [done|]. by apply elem_of_values.
  - intros e. unfold getPatientByOwner.
    destruct (List.filter _ _) as [|x rest] eqn:Hf; [|discriminate].
    intros [= <-]. split; [done|]. intros k d Hk.
    pose proof (proj1 (filter_nil_iff _ _) Hf d) as Hd. cbv beta in Hd.
    apply (proj1 (bool_decide_eq_false _)), Hd, elem_of_values. by exists k.
  - intros Hnone. unfold getPatientByOwner.
    assert (List.filter (λ patient, bool_decide (Patient.owner patient = caller))
              (values (Patients st)) = []) as ->; [|done].
    apply filter_nil_iff. intros d Hd. apply elem_of_values in Hd as [k Hk].
    apply bool_decide_eq_false. by apply (Hnone k).
Qed.

Lemma by_owner_finds_own_record_witness :
  Patient.owner samplePatient = "aaaaa-aa"
  ∧ ∃ k, Patients clinic !! k = Some samplePatient.
Proof.
  apply (proj1 (proj2 (proj2 (proj2 (by_owner_finds_own_record "aaaaa-aa" clinic))))
           samplePatient).
  by vm_compute.
Defined.

(** ** Every update call *)

Ltac run_handler :=
  unfold step, error_of, createDepartment, createDoctor, createPatient,
    createConsultation, createChat, updatePatient, deletePatient,
    updateDoctorAvailability, updateDoctor, deleteDoctor, deleteDepartment,
    createAppointment, updateAppointmentWithVideoLink, createPrescription,
    initiatePayment, updatePaymentStatus, updateMedicalRecords;
  repeat case_match; simplify_eq/=.

(** X5: an update call that answers an error has changed nothing, and the
    error is an [InvalidPayload] or a [NotFound]. *)
Theorem failed_call_changes_nothing (c : Call) (st : State) (e : Message) :
  (step c st).1 = Some e →
  (step c st).2 = st ∧ ((∃ m, e = InvalidPayload m) ∨ (∃ m, e = NotFound m)).
Proof.
  destruct c; run_handler; intros; simplify_eq; eauto.
Qed.

Lemma failed_call_changes_nothing_witness :
  (step (DeletePatient "p-404") clinic).2 = clinic
  ∧ ((∃ m, NotFound "Patient with id=p-404 not found" = InvalidPayload m)
     ∨ (∃ m, NotFound "Patient with id=p-404 not found" = NotFound m)).
Proof.
  apply (failed_call_changes_nothing (DeletePatient "p-404") clinic).
  reflexivity.
Defined.



(** ** Invariants along every sequence of calls *)

Lemma run_invariant (P : State → Prop) :
  (∀ c st, P st → P (step c st).2) →
  ∀ calls st, P st → P (run calls st).
Proof.
  intros Hstep calls. induction calls as [|c calls IH]; intros st Hst; [done|].
  simpl. apply IH, Hstep, Hst.
Qed.

Ltac open_handler :=
  unfold step, error_of, createDepartment, createDoctor, createPatient,
    createConsultation, createChat, updatePatient, deletePatient,
    updateDoctorAvailability, updateDoctor, deleteDoctor, deleteDepartment,
    createAppointment, updateAppointmentWithVideoLink, createPrescription,
    initiatePayment, updatePaymentStatus, updateMedicalRecords;
  repeat case_match; simplify_eq;
  unfold set_Departments, set_Doctors, set_Patients, set_Consultations, set_Chats,
    set_Appointments, set_Prescriptions, set_Payments, set_MedicalRecords.

Ltac read_state :=
  cbn [fst snd Departments Doctors Patients Consultations Chats Appointments
       Prescriptions Payments MedicalRecords].

Tactic Notation "read_state" "in" hyp(H) :=
  cbn [fst snd Departments Doctors Patients Consultations Chats Appointments
       Prescriptions Payments MedicalRecords] in H.

Ltac lookup_cases :=
  intros ? ?; rewrite ?lookup_insert, ?lookup_delete;
  repeat case_decide; intros; simplify_eq/=; eauto.

Lemma keys_are_ids_step (c : Call) (st : State) :
  keys_are_ids st → keys_are_ids (step c st).2.
Proof.
  intros (H1 & H2 & H3 & H4 & H5 & H6 & H7 & H8).
  destruct c; open_handler; repeat apply conj; read_state; try done; lookup_cases.
Qed.

(** X7: every record is stored under its own id.  This is so in the empty
    canister, each update call keeps it so, with whatever arguments and
    whatever identifier [uuidv4] hands out, and hence it is so after any
    sequence of calls: the key a record is found under and the [id] inside it
    never disagree, for departments, doctors, patients, consultations,
    chats, appointments, prescriptions and payments. *)
Theorem keys_are_ids_always (calls : list Call) :
  keys_are_ids emptyState
  ∧ (∀ c st, keys_are_ids st → keys_are_ids (step c st).2)
  ∧ keys_are_ids (run calls emptyState).
Proof.
  assert (keys_are_ids emptyState) as H0.
  { repeat apply conj; intros k r Hk; unfold emptyState in Hk; read_state in Hk;
      by rewrite lookup_empty in Hk. }
  split; [exact H0|]. split; [apply keys_are_ids_step|].
  by apply run_invariant; [apply keys_are_ids_step|].
Qed.

Lemma department_names_distinct_step (c : Call) (st : State) :
  department_names_distinct st → department_names_distinct (step c st).2.
Proof.
  intros [Hne Hdist].
  destruct c; open_handler; split; read_state; try done.
  - intros k d. rewrite lookup_insert. case_decide; [|by apply Hne].
    intros [= <-]. cbn. by apply not_text_false.
  - assert (∀ k d, Departments st !! k = Some d →
                   Department.name d ≠ CreateDepartmentPayload.name payload) as Hfree.
    { intros k d Hk Hd.
      assert (name_in_use (CreateDepartmentPayload.name payload) (values (Departments st))
              = true) as Hyes by (apply name_in_use_values; eauto).
      congruence. }
    intros k1 k2 d1 d2. rewrite !lookup_insert. repeat case_decide; simplify_eq.
    + done.
    + intros [= <-] Hk2 Hn. cbn in Hn. by destruct (Hfree k2 d2 Hk2).
    + intros Hk1 [= <-] Hn. cbn in Hn. by destruct (Hfree k1 d1 Hk1).
    + apply Hdist.
  - intros k d. rewrite lookup_delete. case_decide; [done|by apply Hne].
  - intros k1 k2 d1 d2. rewrite !lookup_delete. repeat case_decide; try done.
    apply Hdist.
Qed.

(** X8: after any sequence of calls no stored department has an empty name
    and no two stored departments have the same name, whatever identifiers
    [uuidv4] hands out. *)
Theorem department_names_distinct_always (calls : list Call) :
  department_names_distinct emptyState
  ∧ (∀ c st, department_names_distinct st → department_names_distinct (step c st).2)
  ∧ department_names_distinct (run calls emptyState).
Proof.
  assert (department_names_distinct emptyState) as H0.
  { split; [intros k d Hk|intros k1 k2 d1 d2 Hk]; unfold emptyState in Hk;
      read_state in Hk; by rewrite lookup_empty in Hk. }
  split; [exact H0|]. split; [apply department_names_distinct_step|].
  by apply run_invariant; [apply department_names_distinct_step|].
Qed.

Ltac guard_facts :=
  repeat match goal with
         | H : _ || _ = false |- _ => apply orb_false_iff in H as [? ?]
         | H : not_text _ = false |- _ => apply not_text_false in H
         | H : not_nat64 _ = false |- _ => apply N.eqb_neq in H
         end.

Lemma validated_records_step (c : Call) (st : State) :
  validated_records st → validated_records (step c st).2.
Proof.
  intros (H1 & H2 & H3 & H4 & H5).
  destruct c; open_handler; guard_facts; repeat apply conj; read_state; try done;
    intros k r; rewrite lookup_insert; (case_decide; [|by eauto]);
    intros [= <-]; cbn; try done.
  - match goal with H : Appointments st !! _ = Some _ |- _ =>
      destruct (H3 _ _ H) as (? & ? & ? & ? & ? & ?) end.
    repeat split; try done. intros [= ->]. discriminate.
  - match goal with H : Payments st !! _ = Some _ |- _ =>
      destruct (H5 _ _ H) as (? & ? & ? & ?) end.
    done.
Qed.


Lemma nothing_removed_step (c : Call) (st : State) : nothing_removed st (step c st).2.
Proof.
  destruct c; open_handler; repeat apply conj; read_state; try done;
    intros k; rewrite lookup_insert; case_decide; eauto.
Qed.

(** X10: no call removes a consultation, a chat, an appointment, a
    prescription, a payment or a medical record: a key of one of these six
    stores is still a key of it after any call, and after any sequence of
    calls. *)
Theorem nothing_removed_always (calls : list Call) (st : State) :
  (∀ c, nothing_removed st (step c st).2) ∧ nothing_removed st (run calls st).
Proof.
  split; [intros c; apply nothing_removed_step|].
  revert st. induction calls as [|c calls IH]; intros st.
  - by repeat split.
  - simpl. destruct (nothing_removed_step c st) as (A1 & A2 & A3 & A4 & A5 & A6).
    destruct (IH (step c st).2) as (B1 & B2 & B3 & B4 & B5 & B6).
    repeat split; eauto.
Qed.

Lemma kept_as_created_refl (k : string) (st : State) : kept_as_created k st st.
Proof. repeat apply conj; eauto 10. Qed.

Lemma kept_as_created_trans (k : string) (st1 st2 st3 : State) :
  kept_as_created k st1 st2 → kept_as_created k st2 st3 → kept_as_created k st1 st3.
Proof.
  intros (A1 & A2 & A3 & A4 & A5) (B1 & B2 & B3 & B4 & B5).
  repeat apply conj; eauto.
  - intros r Hr. destruct (A4 r Hr) as (r' & Hr' & ? & ? & ? & ? & ? & ?).
    destruct (B4 r' Hr') as (r'' & Hr'' & ? & ? & ? & ? & ? & ?).
    exists r''. repeat split; congruence.
  - intros r Hr. destruct (A5 r Hr) as (r' & Hr' & ? & ? & ? & ? & ?).
    destruct (B5 r' Hr') as (r'' & Hr'' & ? & ? & ? & ? & ?).
    exists r''. repeat split; congruence.
Qed.

Lemma kept_as_created_step (k : string) (c : Call) (st : State) :
  ¬ creates_under k c → kept_as_created k st (step c st).2.
Proof.
  intros Hc.
  destruct c; cbn [creates_under] in Hc; open_handler;
    try apply kept_as_created_refl;
    repeat apply conj; read_state; eauto 10;
    intros r; rewrite lookup_insert; case_decide; simplify_eq; eauto 10;
    intros Hr; simplify_eq; eexists; (split; [reflexivity|]); done.
Qed.



(** ** Updates, one after the other *)

Ltac twice :=
  unfold set_Departments, set_Doctors, set_Patients, set_Appointments, set_Payments,
    set_MedicalRecords;
  cbn [fst snd Departments Doctors Patients Consultations Chats Appointments
       Prescriptions Payments MedicalRecords];
  rewrite ?lookup_insert_eq, ?insert_insert_eq; try reflexivity.

(** X12: the last update wins.  Two updates of the same record by the same
    handler, one after the other, give the answer and the state that the
    second one gives alone; for [updateAppointmentWithVideoLink] this needs
    the second link not to be empty. *)
Theorem last_update_wins (st : State) (key : string) :
  (∀ a b, updatePatient key b (updatePatient key a st).2 = updatePatient key b st)
  ∧ (∀ a b, updateDoctor key b (updateDoctor key a st).2 = updateDoctor key b st)
  ∧ (∀ a b, updateDoctorAvailability key b (updateDoctorAvailability key a st).2
            = updateDoctorAvailability key b st)
  ∧ (∀ a b, updatePaymentStatus key b (updatePaymentStatus key a st).2
            = updatePaymentStatus key b st)
  ∧ (∀ a b, b ≠ "" →
            updateAppointmentWithVideoLink key b
              (updateAppointmentWithVideoLink key a st).2
            = updateAppointmentWithVideoLink key b st)
  ∧ (∀ a b, updateMedicalRecords key b (updateMedicalRecords key a st).2
            = updateMedicalRecords key b st).
Proof.
  repeat apply conj.
  - intros a b. unfold updatePatient at 2 3.
    destruct (Patients st !! key) as [r|] eqn:Hr; cbn [snd].
    + unfold updatePatient. twice.
    + unfold updatePatient. by rewrite Hr.
  - intros a b. unfold updateDoctor at 2 3.
    destruct (Doctors st !! key) as [r|] eqn:Hr; cbn [snd].
    + unfold updateDoctor. twice.
    + unfold updateDoctor. by rewrite Hr.
  - intros a b. unfold updateDoctorAvailability at 2 3.
    destruct (Doctors st !! key) as [r|] eqn:Hr; cbn [snd].
    + unfold updateDoctorAvailability. twice.
    + unfold updateDoctorAvailability. by rewrite Hr.
  - intros a b. unfold updatePaymentStatus at 2 3.
    destruct (Payments st !! key) as [r|] eqn:Hr; cbn [snd].
    + unfold updatePaymentStatus. twice.
    + unfold updatePaymentStatus. by rewrite Hr.
  - intros a b Hb. apply not_text_false in Hb.
    unfold updateAppointmentWithVideoLink at 2 3. rewrite Hb. cbn [andb].
    destruct (not_text a && (String.length a =? 0)%nat); cbn [snd].
    { unfold updateAppointmentWithVideoLink. by rewrite Hb. }
    destruct (Appointments st !! key) as [r|] eqn:Hr; cbn [snd].
    + unfold updateAppointmentWithVideoLink. rewrite Hb. cbn [andb]. twice.
    + unfold updateAppointmentWithVideoLink. by rewrite Hb, Hr.
  - intros a b. unfold updateMedicalRecords. twice.
Qed.

Lemma last_update_wins_witness :
  updateAppointmentWithVideoLink "a-1" "https://meet.example/b"
    (updateAppointmentWithVideoLink "a-1" "https://meet.example/a" clinic).2
  = updateAppointmentWithVideoLink "a-1" "https://meet.example/b" clinic.
Proof.
  apply (proj1 (proj2 (proj2 (proj2 (proj2 (last_update_wins clinic "a-1")))))).
  discriminate.
Defined.

(** ** Searches with an empty name *)

Lemma includes_empty (s : string) : includes s "" = true.
Proof. rewrite includes_unfold. by destruct s. Qed.

Lemma filter_all {A : Type} (f : A → bool) (l : list A) :
  (∀ x, f x = true) → List.filter f l = l.
Proof.
  intros Hf. induction l as [|a l IH]; simpl; [done|]. by rewrite Hf, IH.
Qed.



(** ** The insurance estimate *)

Section Insurance.

Local Open Scope Z_scope.

(** A mantissa of exactly 53 bits in the normal range is not rounded. *)
Lemma binary_round_aux_exact (sx : bool) (mx : positive) (ex : Z) :
  Z.pos (digits2_pos mx) = 53 → -1074 ≤ ex ≤ 971 →
  binary_round_aux Js.prec Js.emax sx (Z.pos mx) ex loc_Exact = S754_finite sx mx ex.
Proof.
  intros Hd He. unfold binary_round_aux, shr_fexp. cbn [Zdigits2].
  rewrite Hd, fexp_normal by lia. replace (53 + ex - 53 - ex) with 0 by lia.
  cbn [shr shr_record_of_loc shr_m loc_of_shr_record round_nearest_even Zdigits2].
  rewrite Hd, fexp_normal by lia. replace (53 + ex - 53 - ex) with 0 by lia.
  cbn [shr shr_record_of_loc shr_m].
  destruct (Z.leb_spec ex (Js.emax - Js.prec)) as [_|Hbad];
    [done|unfold Js.emax, Js.prec in Hbad; lia].
Qed.

(** [Number(n)] is [n] itself, in the form of a 53-bit mantissa, for a
    bigint from 1 to 2^53 - 1. *)
Lemma Number_exact (n : N) :
  (0 < n < 2 ^ 53)%N →
  ∃ m e, Js.Number n = S754_finite false m e
         ∧ -52 ≤ e ≤ 0 ∧ Z.pos m = Z.of_N n * 2 ^ (- e).
Proof.
  intros [Hpos Hlt]. destruct n as [|p]; [lia|].
  assert (Z.pos p < 2 ^ 53) as Hp by exact (proj1 (N2Z.inj_lt _ _) Hlt).
  unfold Js.Number, binary_normalize, binary_round. cbn [Z.of_N].
  pose proof (Zdigits2_bounds (Z.pos p) eq_refl) as Hb. cbn [Zdigits2] in Hb.
  set (D := Z.pos (digits2_pos p)) in *.
  assert (1 ≤ D ≤ 53) as HD.
  { split; [unfold D; lia|].
    destruct (Z.le_gt_cases D 53) as [|Hgt]; [done|].
    assert (2 ^ 53 ≤ 2 ^ (D - 1)) by (apply Z.pow_le_mono_r; lia). lia. }
  rewrite Z.add_0_r, fexp_normal by lia.
  destruct (shl_align_spec p 0 (D - 53)) as [Hez Hmz].
  destruct (shl_align p 0 (D - 53)) as [mz ez]. cbn [fst snd] in Hez, Hmz.
  replace (Z.min 0 (D - 53)) with (D - 53) in Hez, Hmz by lia. subst ez.
  assert (Zdigits2 (Z.pos mz) = 53) as Hdz.
  { apply Zdigits2_unique; [|lia]. rewrite Hmz.
    assert (0 < 2 ^ (0 - (D - 53))) by (apply Z.pow_pos_nonneg; lia).
    assert (2 ^ (53 - 1) = 2 ^ (D - 1) * 2 ^ (0 - (D - 53))) as E1
      by (rewrite <- Z.pow_add_r by lia; f_equal; lia).
    assert (2 ^ 53 = 2 ^ D * 2 ^ (0 - (D - 53))) as E2
      by (rewrite <- Z.pow_add_r by lia; f_equal; lia).
    rewrite E1, E2. nia. }
  cbn [Zdigits2] in Hdz. rewrite binary_round_aux_exact by (done || lia).
  exists mz, (D - 53). split; [done|]. split; [lia|].
  rewrite Hmz. replace (- (D - 53)) with (0 - (D - 53)) by lia. reflexivity.
Qed.

Lemma estimate_of_exact_number (n : Z) (m : positive) (e : Z) :
  -52 ≤ e ≤ 0 → Z.pos m = n * 2 ^ (- e) →
  binary_normalize Js.prec Js.emax n 0 false = S754_finite false m e →
  JsMath.BigInt (JsMath.round (S754_finite false m e)) = Some n.
Proof.
  intros He Hm Hnum.
  assert (0 < 2 ^ (- e)) as Hpow by (apply Z.pow_pos_nonneg; lia).
  unfold JsMath.round. destruct (Z.leb_spec 0 e) as [H0|Hneg].
  - assert (e = 0) as -> by lia. cbn [JsMath.BigInt Z.leb JsMath.signed].
    f_equal. rewrite Hm. cbn. lia.
  - cbn [JsMath.signed].
    assert ((2 * Z.pos m + 2 ^ (- e)) / 2 ^ (1 - e) = n) as ->.
    { replace (1 - e) with (1 + - e) by lia. rewrite Z.pow_add_r, Z.pow_1_r by lia.
      rewrite Hm. symmetry. apply (Z.div_unique _ _ _ (2 ^ (- e))); lia. }
    rewrite Hnum. cbn [JsMath.BigInt JsMath.signed].
    destruct (Z.leb_spec 0 e) as [|_]; [lia|].
    rewrite Hm, Z.mod_mul, Z.div_mul by lia. reflexivity.
Qed.



End Insurance.

(** ** References between the stores *)

Lemma references_resolve_step (c : Call) (st : State) :
  ¬ may_break_references c → references_resolve st → references_resolve (step c st).2.
Proof.
  intros Hc (H1 & H2 & H3 & H4 & H5 & H6).
  destruct c; cbn [may_break_references] in Hc; try tauto;
    open_handler; repeat apply conj; read_state; try done;
    intros k r; rewrite ?lookup_insert; repeat case_decide; intros; simplify_eq;
    cbn; rewrite ?lookup_insert; repeat case_decide; eauto;
    match goal with
    | Hr : ?m !! _ = Some _, H : ∀ k r, ?m !! k = Some r → _ ∧ _ |- _ =>
        destruct (H _ _ Hr); split; eauto
    end.
Qed.

(** X15: references are kept as long as nothing is deleted.  Every create
    and every update but [updateDoctor] keeps each stored reference pointing
    at a record, so after any sequence of calls from the empty canister that
    has no delete and no [updateDoctor] in it every doctor's department,
    every consultation's patient and department, every chat's, appointment's
    and prescription's patient and doctor, and every payment's patient and
    appointment is on record. *)
Theorem references_resolve_without_delete (calls : list Call) :
  Forall (λ c, ¬ may_break_references c) calls →
  references_resolve (run calls emptyState).
Proof.
  assert (references_resolve emptyState) as H0.
  { repeat apply conj; intros k r Hk; unfold emptyState in Hk;
      read_state in Hk; by rewrite lookup_empty in Hk. }
  revert H0. generalize emptyState. induction calls as [|c calls IH]; intros st Hst Hall.
  - exact Hst.
  - apply Forall_cons in Hall as [Hc Hall]. simpl.
    apply IH; [by apply references_resolve_step|done].
Qed.

Lemma references_resolve_without_delete_witness :
  references_resolve
    (run [CreateDepartment "dep-1" (CreateDepartmentPayload.mk "Cardiology" "");
          CreateDoctor "doc-1" "bbbbb-bb" (CreateDoctorPayload.mk "Dr. Wu" "dep-1" "wu.png");
          CreatePatient "p-1" "aaaaa-aa" samplePatientPayload;
          CreateAppointment "a-1"
            (CreateAppointmentPayload.mk "p-1" "doc-1" "checkup" "2024-05-01T09:00");
          UpdatePatient "p-1" renamedPatientPayload;
          InitiatePayment "pay-1" (CreatePaymentPayload.mk "p-1" "a-1" 120 "credit_card")]
       emptyState).
Proof.
  apply references_resolve_without_delete.
  repeat apply List.Forall_cons; try apply List.Forall_nil; cbn [may_break_references];
    tauto.
Defined.

(** ** When a create succeeds *)

Lemma two_reference_success {T V1 V2 : Type} (g : bool) (fields : Prop)
    (o1 : option V1) (o2 : option V2) (m0 m1 m2 : Message)
    (r : T) (st st1 : State) :
  (g = false ↔ fields) →
  let answer :=
    if g then (Err m0, st)
    else match o1 with
         | None => (Err m1, st)
         | Some _ => match o2 with
                     | None => (Err m2, st)
                     | Some _ => (Ok r, st1)
                     end
         end in
  (fields ∧ is_Some o1 ∧ is_Some o2 → answer = (Ok r, st1))
  ∧ (∀ r' st', answer = (Ok r', st') → fields ∧ is_Some o1 ∧ is_Some o2).
Proof.
  intros Hg answer. unfold answer. split.
  - intros (Hf & [v1 ->] & [v2 ->]). apply Hg in Hf. by rewrite Hf.
  - intros r' st'. destruct g; [discriminate|].
    destruct o1; [|discriminate]. destruct o2; [|discriminate].
    intros _. split; [by apply Hg|]. by split.
Qed.

Ltac fields_iff :=
  rewrite ?orb_false_iff, ?not_text_false; unfold not_vec, not_nat64;
  rewrite ?N.eqb_neq; tauto.

(** X16: a create on Consultation, Chat, Appointment, Prescription or
    Payment succeeds exactly when the required fields of its payload are
    not empty (for a payment the amount not 0 as well) and both referenced
    ids are on record.  It then returns, and stores under the identifier it
    was handed, the payload's fields with that identifier and the
    defaults: status "scheduled" and no video link for an appointment, the
    current time as [issued_at] for a prescription, status "pending" for a
    payment. *)
Theorem create_succeeds_iff (uuid now : string) (st : State) :
  (∀ p : CreateConsultationPayload.t,
     let pid := CreateConsultationPayload.patient_id p in
     let problem := CreateConsultationPayload.problem p in
     let did := CreateConsultationPayload.department_id p in
     let valid := (pid ≠ "" ∧ problem ≠ "" ∧ did ≠ "")
                  ∧ is_Some (Patients st !! pid) ∧ is_Some (Departments st !! did) in
     let r := Consultation.mk uuid pid problem did in
     (valid → createConsultation uuid p st
              = (Ok r, set_Consultations (<[uuid := r]> (Consultations st)) st))
     ∧ (∀ r' st', createConsultation uuid p st = (Ok r', st') → valid))
  ∧ (∀ p : CreateChatPayload.t,
     let pid := CreateChatPayload.patient_id p in
     let did := CreateChatPayload.doctor_id p in
     let message := CreateChatPayload.message p in
     let timestamp := CreateChatPayload.timestamp p in
     let valid := (pid ≠ "" ∧ did ≠ "" ∧ message ≠ "" ∧ timestamp ≠ "")
                  ∧ is_Some (Patients st !! pid) ∧ is_Some (Doctors st !! did) in
     let r := Chat.mk uuid pid did message timestamp in
     (valid → createChat uuid p st = (Ok r, set_Chats (<[uuid := r]> (Chats st)) st))
     ∧ (∀ r' st', createChat uuid p st = (Ok r', st') → valid))
  ∧ (∀ p : CreateAppointmentPayload.t,
     let pid := CreateAppointmentPayload.patient_id p in
     let did := CreateAppointmentPayload.doctor_id p in
     let reason := CreateAppointmentPayload.reason p in
     let time := CreateAppointmentPayload.appointment_time p in
     let valid := (pid ≠ "" ∧ did ≠ "" ∧ reason ≠ "" ∧ time ≠ "")
                  ∧ is_Some (Patients st !! pid) ∧ is_Some (Doctors st !! did) in
     let r := Appointment.mk uuid pid did reason time "scheduled" None in
     (valid → createAppointment uuid p st
              = (Ok r, set_Appointments (<[uuid := r]> (Appointments st)) st))
     ∧ (∀ r' st', createAppointment uuid p st = (Ok r', st') → valid))
  ∧ (∀ p : CreatePrescriptionPayload.t,
     let pid := CreatePrescriptionPayload.patient_id p in
     let did := CreatePrescriptionPayload.doctor_id p in
     let medications := CreatePrescriptionPayload.medications p in
     let instructions := CreatePrescriptionPayload.instructions p in
     let valid := (pid ≠ "" ∧ did ≠ "" ∧ instructions ≠ "")
                  ∧ is_Some (Patients st !! pid) ∧ is_Some (Doctors st !! did) in
     let r := Prescription.mk uuid pid did medications instructions now in
     (valid → createPrescription uuid now p st
              = (Ok r, set_Prescriptions (<[uuid := r]> (Prescriptions st)) st))
     ∧ (∀ r' st', createPrescription uuid now p st = (Ok r', st') → valid))
  ∧ (∀ p : CreatePaymentPayload.t,
     let pid := CreatePaymentPayload.patient_id p in
     let aid := CreatePaymentPayload.appointment_id p in
     let amount := CreatePaymentPayload.amount p in
     let method := CreatePaymentPayload.payment_method p in
     let valid := (pid ≠ "" ∧ aid ≠ "" ∧ amount ≠ 0%N ∧ method ≠ "")
                  ∧ is_Some (Patients st !! pid) ∧ is_Some (Appointments st !! aid) in
     let r := Payment.mk uuid aid pid amount "pending" method in
     (valid → initiatePayment uuid p st
              = (Ok r, set_Payments (<[uuid := r]> (Payments st)) st))
     ∧ (∀ r' st', initiatePayment uuid p st = (Ok r', st') → valid)).
Proof.
  repeat apply conj; intros p; cbv zeta.
  - refine (two_reference_success _ _ _ _ _ _ _ _ st _ _). fields_iff.
  - refine (two_reference_success _ _ _ _ _ _ _ _ st _ _). fields_iff.
  - refine (two_reference_success _ _ _ _ _ _ _ _ st _ _). fields_iff.
  - refine (two_reference_success _ _ _ _ _ _ _ _ st _ _). fields_iff.
  - refine (two_reference_success _ _ _ _ _ _ _ _ st _ _). fields_iff.
Qed.

Lemma create_succeeds_iff_witness :
  initiatePayment "pay-1" (CreatePaymentPayload.mk "p-1" "a-1" 120 "credit_card") clinic
  = (Ok samplePayment, set_Payments (<["pay-1" := samplePayment]> (Payments clinic)) clinic).
Proof.
  apply (proj1 (proj2 (proj2 (proj2 (proj2 (create_succeeds_iff "pay-1" "" clinic))))
                 (CreatePaymentPayload.mk "p-1" "a-1" 120 "credit_card"))).
  repeat split; try discriminate; by eexists.
Defined.
